(** * The settings registry of OpenMC: [src/settings.cpp]

    A shallow embedding of the global settings of namespace
    [openmc::settings] and of [read_settings], which fills them from the
    root node of [settings.xml].

    - C++ [double] is the kernel's binary64 [float]; a literal of the source
      is the same literal here.
    - C++ [int] is [Z] (no arithmetic is done on the ones used here).
    - The globals are a record threaded through a state monad; the monad
      also carries the vector [external_sources] and the warnings written
      so far, and its outcomes tell a normal return from [fatal_error],
      from an exception of [std::stod] that nothing catches, and from an
      out-of-range index. *)

From Stdlib Require Import String Ascii List Bool ZArith Lia.
From Stdlib Require Import Floats.PrimFloat.
Import ListNotations.

Set Warnings "-inexact-float,-register-all".
Local Open Scope list_scope.
Local Open Scope string_scope.

(** ** Strings ([openmc/string_utils.h]) *)

Module StringUtils.

(** [std::equal(first1, last1, first2)]: the range [p] against the
    beginning of [l]. *)
Fixpoint equal (p l : list ascii) : bool :=
  match p, l with
  | [], _ => true
  | _ :: _, [] => false
  | a :: p', b :: l' => Ascii.eqb a b && equal p' l'
  end.

(** Modelled from the spec: [ends_with] is defined in string_utils.cpp,
    outside settings.cpp; the spec speaks of a string "already ending in a
    separator".  A longer ending never matches, otherwise the ending is
    compared backwards from the end of the value. *)
Definition ends_with (value ending : string) : bool :=
  if (String.length value <? String.length ending)%nat then false
  else equal (rev (list_ascii_of_string ending))
             (rev (list_ascii_of_string value)).

(** [to_lower]: the letters A-Z become a-z, nothing else changes. *)
Definition lower (c : ascii) : ascii :=
  let n := nat_of_ascii c in
  if ((65 <=? n) && (n <=? 90))%nat then ascii_of_nat (n + 32) else c.

Fixpoint to_lower (s : string) : string :=
  match s with
  | EmptyString => EmptyString
  | String c s' => String (lower c) (to_lower s')
  end.

(** The characters of [" \t\r\n"]. *)
Definition is_space (c : ascii) : bool :=
  let n := nat_of_ascii c in
  ((n =? 32) || (n =? 9) || (n =? 13) || (n =? 10))%nat.

Fixpoint drop_spaces (l : list ascii) : list ascii :=
  match l with
  | [] => []
  | c :: l' => if is_space c then drop_spaces l' else l
  end.

(** Leading and trailing white space erased. *)
Definition strip (s : string) : string :=
  string_of_list_ascii
    (rev (drop_spaces (rev (drop_spaces (list_ascii_of_string s))))).

(** What the callers mean by it: [s] is some string followed by [e]. *)
Definition has_suffix (e s : string) : Prop := exists p, s = p ++ e.

End StringUtils.
Export StringUtils.

(** ** Source distributions ([openmc/source.h], [openmc/distribution*.h]) *)

(** The distributions that [read_settings] builds itself. *)
Inductive SpatialDistribution : Type :=
| SpatialPoint (x y z : float).

Inductive UnitSphereDistribution : Type :=
| Isotropic.

Inductive Distribution : Type :=
| Watt (a b : float).

(** A [SourceDistribution] is known by the constructor call that made it:
    [SourceDistribution(pugi::xml_node)], whose body is in source.cpp, or
    [SourceDistribution(UPtrSpace, UPtrAngle, UPtrDist)]. *)
Inductive SourceDistribution (node : Type) : Type :=
| SourceDistribution_xml (n : node)
| SourceDistribution_parts (space : SpatialDistribution)
                           (angle : UnitSphereDistribution)
                           (energy : Distribution).
Arguments SourceDistribution_xml {node} n.
Arguments SourceDistribution_parts {node} space angle energy.

(** The exceptions of [std::stod]: [std::invalid_argument] when the text
    does not start with a number, [std::out_of_range] when the number does
    not fit a [double]. *)
Inductive exception : Type :=
| invalid_argument
| out_of_range.

(** ** What [read_settings] takes from other files

    The constants of constants.h, the document access of xml_interface.h
    (over pugixml), [std::stod] and the failure of the source constructor
    are parameters: [read_settings] is verified for every choice of them. *)
Class Externals : Type := {
  (* constants.h *)
  RUN_MODE_PLOTTING : Z;
  TEMPERATURE_NEAREST : Z;
  TEMPERATURE_INTERPOLATION : Z;
  (* pugi::xml_node and xml_interface.h *)
  xml_node : Type;
  check_for_node : xml_node -> string -> bool;
  (* get_node_value(node, name, lowercase, strip) *)
  get_node_value : xml_node -> string -> bool -> bool -> string;
  get_node_value_bool : xml_node -> string -> bool;
  (* get_node_array<double>(node, name) *)
  get_node_array_double : xml_node -> string -> list float;
  (* node.child(name), node.children(name) *)
  child : xml_node -> string -> xml_node;
  children : xml_node -> string -> list xml_node;
  (* std::stod of <string>: the number, or the exception it throws *)
  stod : string -> exception + float;
  (* the message of the fatal_error raised by SourceDistribution(node),
     if it raises one *)
  source_error : xml_node -> option string
}.

(** ** The globals of namespace [settings]

    The fields are the globals that [read_settings] reads or writes, and
    [energy_cutoff]; the other globals of lines 22-74 are not touched by
    it.  [run_mode] has no initializer: a global [int] starts at zero. *)
Module settings.

Record t : Type := mk {
  temperature_multipole : bool;
  path_cross_sections : string;
  path_multipole : string;
  path_output : string;
  energy_cutoff : float * float * float * float;
  run_mode : Z;
  temperature_method : Z;
  temperature_tolerance : float;
  temperature_default : float;
  temperature_range : float * float
}.

Definition default `{Externals} : t := {|
  temperature_multipole := false;
  path_cross_sections := "";
  path_multipole := "";
  path_output := "";
  energy_cutoff := (0.0, 1000.0, 0.0, 0.0)%float;
  run_mode := 0;
  temperature_method := TEMPERATURE_NEAREST;
  temperature_tolerance := 10.0%float;
  temperature_default := 293.6%float;
  temperature_range := (0.0, 0.0)%float
|}.

Definition set_temperature_multipole (v : bool) (s : t) : t :=
  mk v (path_cross_sections s) (path_multipole s) (path_output s)
     (energy_cutoff s) (run_mode s) (temperature_method s)
     (temperature_tolerance s) (temperature_default s) (temperature_range s).

Definition set_path_cross_sections (v : string) (s : t) : t :=
  mk (temperature_multipole s) v (path_multipole s) (path_output s)
     (energy_cutoff s) (run_mode s) (temperature_method s)
     (temperature_tolerance s) (temperature_default s) (temperature_range s).

Definition set_path_multipole (v : string) (s : t) : t :=
  mk (temperature_multipole s) (path_cross_sections s) v (path_output s)
     (energy_cutoff s) (run_mode s) (temperature_method s)
     (temperature_tolerance s) (temperature_default s) (temperature_range s).

Definition set_path_output (v : string) (s : t) : t :=
  mk (temperature_multipole s) (path_cross_sections s) (path_multipole s) v
     (energy_cutoff s) (run_mode s) (temperature_method s)
     (temperature_tolerance s) (temperature_default s) (temperature_range s).

Definition set_run_mode (v : Z) (s : t) : t :=
  mk (temperature_multipole s) (path_cross_sections s) (path_multipole s)
     (path_output s) (energy_cutoff s) v (temperature_method s)
     (temperature_tolerance s) (temperature_default s) (temperature_range s).

Definition set_temperature_method (v : Z) (s : t) : t :=
  mk (temperature_multipole s) (path_cross_sections s) (path_multipole s)
     (path_output s) (energy_cutoff s) (run_mode s) v
     (temperature_tolerance s) (temperature_default s) (temperature_range s).

Definition set_temperature_tolerance (v : float) (s : t) : t :=
  mk (temperature_multipole s) (path_cross_sections s) (path_multipole s)
     (path_output s) (energy_cutoff s) (run_mode s) (temperature_method s)
     v (temperature_default s) (temperature_range s).

Definition set_temperature_default (v : float) (s : t) : t :=
  mk (temperature_multipole s) (path_cross_sections s) (path_multipole s)
     (path_output s) (energy_cutoff s) (run_mode s) (temperature_method s)
     (temperature_tolerance s) v (temperature_range s).

Definition set_temperature_range (v : float * float) (s : t) : t :=
  mk (temperature_multipole s) (path_cross_sections s) (path_multipole s)
     (path_output s) (energy_cutoff s) (run_mode s) (temperature_method s)
     (temperature_tolerance s) (temperature_default s) v.

End settings.

(** ** The state of the process and the outcomes of a call *)

Section ReadSettings.

Context {E : Externals}.

(** [external_sources] is the global vector of source.h; [warnings] holds
    the messages passed to [warning] so far, oldest first. *)
Record world : Type := mkWorld {
  globals : settings.t;
  external_sources : list (SourceDistribution xml_node);
  warnings : list string
}.

(** A call returns, or stops in [fatal_error] (which does not return), or
    is left by an exception that no handler of this file catches, or
    reads a vector past its end.  Each outcome keeps the state reached.
    After a read past the end the behaviour of the program is undefined:
    [Undefined] holds the state in which the read is made, and the model
    follows the program no further (a compiled program may well go on and
    return). *)
Inductive outcome (A : Type) : Type :=
| Returned (a : A) (w : world)
| Fatal (msg : string) (w : world)
| Thrown (e : exception) (w : world)
| Undefined (w : world).
Arguments Returned {A} a w.
Arguments Fatal {A} msg w.
Arguments Thrown {A} e w.
Arguments Undefined {A} w.

Definition M (A : Type) : Type := world -> outcome A.

Definition ret {A} (a : A) : M A := fun w => Returned a w.

Definition bind {A B} (m : M A) (k : A -> M B) : M B :=
  fun w =>
    match m w with
    | Returned a w' => k a w'
    | Fatal msg w' => Fatal msg w'
    | Thrown e w' => Thrown e w'
    | Undefined w' => Undefined w'
    end.

Notation "x <- m ;; k" := (bind m (fun x => k))
  (at level 61, m at next level, right associativity).
Notation "m ;; k" := (bind m (fun _ => k))
  (at level 61, right associativity).

(** The state in which a call ends, whatever the outcome. *)
Definition final {A} (o : outcome A) : world :=
  match o with
  | Returned _ w => w
  | Fatal _ w => w
  | Thrown _ w => w
  | Undefined w => w
  end.

Definition get : M settings.t := fun w => Returned (globals w) w.

Definition modify (f : settings.t -> settings.t) : M unit :=
  fun w =>
    Returned tt (mkWorld (f (globals w)) (external_sources w) (warnings w)).

Definition get_sources : M (list (SourceDistribution xml_node)) :=
  fun w => Returned (external_sources w) w.

(** [external_sources.push_back(s)] *)
Definition push_back (s : SourceDistribution xml_node) : M unit :=
  fun w =>
    Returned tt
      (mkWorld (globals w) (external_sources w ++ [s])%list (warnings w)).

(** Modelled from the spec: [warning] and [fatal_error] are defined in
    error.cpp; a warning is emitted and the run goes on, a fatal error
    carries its message and aborts the load. *)
Definition warning (msg : string) : M unit :=
  fun w =>
    Returned tt
      (mkWorld (globals w) (external_sources w) (warnings w ++ [msg])%list).

Definition fatal_error {A} (msg : string) : M A := fun w => Fatal msg w.

(** [throw e;] with no handler around. *)
Definition throw {A} (e : exception) : M A := fun w => Thrown e w.

(** [std::stod(s)] as a call: its number, or its exception. *)
Definition call_stod (s : string) : M float :=
  match stod s with
  | inr x => ret x
  | inl e => throw e
  end.

(** [v[i]] on a [std::vector<double>]: the entry, or the unchecked read
    past the end at which the model stops. *)
Definition index (v : list float) (i : nat) : M float :=
  fun w =>
    match nth_error v i with
    | Some x => Returned x w
    | None => Undefined w
    end.

(** An [if] without [else]. *)
Definition when (b : bool) (m : M unit) : M unit := if b then m else ret tt.

(** [external_sources.emplace_back(node)]: the constructor runs first. *)
Definition emplace_back (node : xml_node) : M unit :=
  match source_error node with
  | Some msg => fatal_error msg
  | None => push_back (SourceDistribution_xml node)
  end.

(** [for (x : xs) body(x);] *)
Fixpoint for_each {A} (xs : list A) (body : A -> M unit) : M unit :=
  match xs with
  | [] => ret tt
  | x :: xs' => body x ;; for_each xs' body
  end.

(** ** [read_settings] (lines 82-169) *)

Definition cross_sections_deprecated : string :=
  "Setting cross_sections in settings.xml has been deprecated."
  ++ " The cross_sections are now set in materials.xml and the "
  ++ "cross_sections input to materials.xml and the OPENMC_CROSS_SECTIONS"
  ++ " environment variable will take precendent over setting "
  ++ "cross_sections in settings.xml.".

Definition multipole_library_deprecated : string :=
  "Setting multipole_library in settings.xml has been "
  ++ "deprecated. The multipole_library is now set in materials.xml and"
  ++ " the multipole_library input to materials.xml and the "
  ++ "OPENMC_MULTIPOLE_LIBRARY environment variable will take "
  ++ "precendent over setting multipole_library in settings.xml.".

(** Lines 87-94. *)
Definition read_cross_sections (root : xml_node) : M unit :=
  when (check_for_node root "cross_sections") (
    warning cross_sections_deprecated ;;
    modify (settings.set_path_cross_sections
              (get_node_value root "cross_sections" false false))).

(** Lines 97-109. *)
Definition read_multipole_library (root : xml_node) : M unit :=
  s <- get ;;
  when (negb (settings.run_mode s =? RUN_MODE_PLOTTING)%Z) (
    when (check_for_node root "multipole_library") (
      warning multipole_library_deprecated ;;
      modify (settings.set_path_multipole
                (get_node_value root "multipole_library" false false))) ;;
    s <- get ;;
    when (negb (ends_with (settings.path_multipole s) "/")) (
      modify (settings.set_path_multipole (settings.path_multipole s ++ "/")))).

(** Lines 112-124. *)
Definition read_output (root : xml_node) : M unit :=
  when (check_for_node root "output") (
    let node_output := child root "output" in
    when (check_for_node node_output "path") (
      modify (settings.set_path_output
                (get_node_value node_output "path" false false)) ;;
      s <- get ;;
      when (negb (ends_with (settings.path_output s) "/")) (
        modify (settings.set_path_output (settings.path_output s ++ "/"))))).

(** Lines 127-129. *)
Definition read_temperature_default (root : xml_node) : M unit :=
  when (check_for_node root "temperature_default") (
    x <- call_stod (get_node_value root "temperature_default" false false) ;;
    modify (settings.set_temperature_default x)).

(** Lines 130-139. *)
Definition read_temperature_method (root : xml_node) : M unit :=
  when (check_for_node root "temperature_method") (
    let temp_str := get_node_value root "temperature_method" true true in
    if (temp_str =? "nearest")%string then
      modify (settings.set_temperature_method TEMPERATURE_NEAREST)
    else if (temp_str =? "interpolation")%string then
      modify (settings.set_temperature_method TEMPERATURE_INTERPOLATION)
    else
      fatal_error ("Unknown temperature method: " ++ temp_str)).

(** Lines 140-142. *)
Definition read_temperature_tolerance (root : xml_node) : M unit :=
  when (check_for_node root "temperature_tolerance") (
    x <- call_stod (get_node_value root "temperature_tolerance"
                                   false false) ;;
    modify (settings.set_temperature_tolerance x)).

(** Lines 143-145. *)
Definition read_temperature_multipole (root : xml_node) : M unit :=
  when (check_for_node root "temperature_multipole") (
    modify (settings.set_temperature_multipole
              (get_node_value_bool root "temperature_multipole"))).

(** Lines 146-150. *)
Definition read_temperature_range (root : xml_node) : M unit :=
  when (check_for_node root "temperature_range") (
    let range := get_node_array_double root "temperature_range" in
    r0 <- index range 0 ;;
    modify (fun s => settings.set_temperature_range
                       (r0, snd (settings.temperature_range s)) s) ;;
    r1 <- index range 1 ;;
    modify (fun s => settings.set_temperature_range
                       (fst (settings.temperature_range s), r1) s)).

(** The source built at lines 162-166. *)
Definition default_source : SourceDistribution xml_node :=
  SourceDistribution_parts (SpatialPoint 0.0 0.0 0.0)
                           Isotropic
                           (Watt 0.988 2.249e-6).

(** Lines 156-168. *)
Definition read_external_sources (root : xml_node) : M unit :=
  for_each (children root "source") emplace_back ;;
  sources <- get_sources ;;
  when (match sources with [] => true | _ => false end) (
    push_back default_source).

Definition read_settings (root : xml_node) : M unit :=
  read_cross_sections root ;;
  read_multipole_library root ;;
  read_output root ;;
  read_temperature_default root ;;
  read_temperature_method root ;;
  read_temperature_tolerance root ;;
  read_temperature_multipole root ;;
  read_temperature_range root ;;
  read_external_sources root.

(** The path normalizer of the spec, as a function on strings: what lines
    106-108 and 120-122 do to the path they are applied to. *)
Definition normalize (s : string) : string :=
  if ends_with s "/" then s else s ++ "/".

(** *** When a load runs to its end

    Five statements of [read_settings] can keep it from returning in the
    model: [std::stod] at lines 128 and 141, the [fatal_error] of line 137,
    an index past the end of [range] at lines 148-149, and a [fatal_error]
    inside the source constructor at line 157.  A document on which none
    of them does is [loadable]. *)

(** [std::stod] has a number for the text. *)
Definition converts (s : string) : bool :=
  match stod s with inr _ => true | inl _ => false end.

Definition default_converts (root : xml_node) : bool :=
  negb (check_for_node root "temperature_default")
  || converts (get_node_value root "temperature_default" false false).

Definition tolerance_converts (root : xml_node) : bool :=
  negb (check_for_node root "temperature_tolerance")
  || converts (get_node_value root "temperature_tolerance" false false).

(** The constructor accepts the node. *)
Definition accepted (n : xml_node) : bool :=
  match source_error n with None => true | Some _ => false end.

Definition method_accepted (root : xml_node) : bool :=
  negb (check_for_node root "temperature_method")
  || (get_node_value root "temperature_method" true true =? "nearest")%string
  || (get_node_value root "temperature_method" true true
      =? "interpolation")%string.

Definition range_indexable (root : xml_node) : bool :=
  negb (check_for_node root "temperature_range")
  || (2 <=? List.length (get_node_array_double root "temperature_range"))%nat.

Definition sources_accepted (root : xml_node) : bool :=
  forallb accepted (children root "source").

Definition loadable (root : xml_node) : bool :=
  default_converts root && method_accepted root && tolerance_converts root
  && range_indexable root && sources_accepted root.

(** The state in which line 127 is reached: lines 87-124 have run, and
    they always return. *)
Definition before_default (root : xml_node) (w : world) : world :=
  final (read_output root
    (final (read_multipole_library root
      (final (read_cross_sections root w))))).

(** The state in which lines 127-129 end: when [std::stod] does not throw
    at line 128, that is the state in which the [temperature_method]
    lookup of line 130 is reached. *)
Definition before_method (root : xml_node) (w : world) : world :=
  final (read_temperature_default root (before_default root w)).

(** *** Two properties of a piece of code

    [keeps f m]: running [m] leaves the observation [f] of the state as it
    was, however [m] ends.  [total m]: [m] always returns. *)
Definition keeps {A B} (f : world -> B) (m : M A) : Prop :=
  forall w, f (final (m w)) = f w.

Definition total (m : M unit) : Prop :=
  forall w, m w = Returned tt (final (m w)).

End ReadSettings.

Arguments Returned {E A} a w.
Arguments Fatal {E A} msg w.
Arguments Thrown {E A} e w.
Arguments Undefined {E A} w.

Notation "x <- m ;; k" := (bind m (fun x => k))
  (at level 61, m at next level, right associativity).
Notation "m ;; k" := (bind m (fun _ => k))
  (at level 61, right associativity).

(** ** A document-access layer to run [read_settings] on

    Modelled from the spec: pugixml and xml_interface.cpp are outside
    settings.cpp; the spec asks of them to find a child node by name, to
    get its value, trimmed and lowercased on request, and to get an array.
    An element has a name, a text and child elements. *)
Module SimpleXml.

Inductive element : Type :=
| Element (name : string) (text : string) (kids : list element).

Definition name (e : element) : string := let (n, _, _) := e in n.
Definition text (e : element) : string := let (_, t, _) := e in t.
Definition kids (e : element) : list element := let (_, _, k) := e in k.

Definition named (nm : string) (e : element) : bool := (name e =? nm)%string.

(** The empty handle that pugixml returns for a child that is not there. *)
Definition null : element := Element "" "" [].

Definition child (e : element) (nm : string) : element :=
  match find (named nm) (kids e) with
  | Some k => k
  | None => null
  end.

Definition children (e : element) (nm : string) : list element :=
  filter (named nm) (kids e).

Definition check_for_node (e : element) (nm : string) : bool :=
  existsb (named nm) (kids e).

Definition get_node_value (e : element) (nm : string)
    (lowercase strip_it : bool) : string :=
  let value := text (child e nm) in
  let value := if lowercase then to_lower value else value in
  if strip_it then strip value else value.

Definition get_node_value_bool (e : element) (nm : string) : bool :=
  match text (child e nm) with
  | String c _ =>
      existsb (Ascii.eqb c) ["1"; "t"; "T"; "y"; "Y"]%char
  | EmptyString => false
  end.

(** A decimal number at the head of a text, read as [strtod] reads one:
    blanks, a sign, digits with at most one point among them, and an
    exponent when digits follow the [e].  The value is the integer of the
    digits times or divided by a power of ten, which is the nearest
    [double] for up to 15 digits and a power of at most 22; "inf", "nan"
    and hexadecimal numbers are not read. *)
Fixpoint float_of_nat (n : nat) : float :=
  match n with
  | O => 0
  | S k => float_of_nat k + 1
  end%float.

Definition digit (c : ascii) : option nat :=
  let n := nat_of_ascii c in
  if ((48 <=? n) && (n <=? 57))%nat then Some (n - 48)%nat else None.

(** The digits at the head of [l]: their number as a [double] and as a
    [nat], how many they are, and the rest. *)
Fixpoint digits (l : list ascii) (mant : float) (value count : nat)
    : float * nat * nat * list ascii :=
  match l with
  | [] => (mant, value, count, [])
  | c :: l' =>
      match digit c with
      | Some d =>
          digits l' (mant * 10 + float_of_nat d)%float
                 (value * 10 + d)%nat (S count)
      | None => (mant, value, count, l)
      end
  end.

Definition sign (l : list ascii) : bool * list ascii :=
  match l with
  | c :: l' =>
      if Ascii.eqb c "-" then (true, l')
      else if Ascii.eqb c "+" then (false, l')
      else (false, l)
  | [] => (false, [])
  end.

Fixpoint pow10 (n : nat) : float :=
  match n with
  | O => 1
  | S k => pow10 k * 10
  end%float.

(** What the head of a text converts to. *)
Inductive conversion : Type :=
| Number (x : float)
| OutOfRange.

Definition scaled (mant : float) (exponent fraction : nat) (negative : bool)
    : float :=
  if negative then (mant / pow10 (exponent + fraction))%float
  else if (fraction <=? exponent)%nat
       then (mant * pow10 (exponent - fraction))%float
       else (mant / pow10 (fraction - exponent))%float.

(** The conversion and the rest of the text, or [None] when no number
    starts the text. *)
Definition parse (l : list ascii) : option (conversion * list ascii) :=
  let (negative, l0) := sign (drop_spaces l) in
  let '(m1, _, n1, l1) := digits l0 0 0 0 in
  let '(m2, _, n2, l2) :=
    match l1 with
    | c :: l' => if Ascii.eqb c "." then digits l' m1 0 0
                 else (m1, O, O, l1)
    | [] => (m1, O, O, l1)
    end in
  match (n1 + n2)%nat with
  | O => None
  | S _ =>
      let '(exponent_negative, exponent, l3) :=
        match l2 with
        | c :: l' =>
            if Ascii.eqb c "e" || Ascii.eqb c "E" then
              let (negative_e, le) := sign l' in
              let '(_, e, ne, l'') := digits le 0 0 0 in
              match ne with
              | O => (false, O, l2)
              | S _ => (negative_e, e, l'')
              end
            else (false, O, l2)
        | [] => (false, O, l2)
        end in
      let x := scaled m2 exponent n2 exponent_negative in
      if is_infinity x || (is_zero x && negb (is_zero m2)) then
        Some (OutOfRange, l3)
      else Some (Number (if negative then - x else x)%float, l3)
  end.

Definition stod (s : string) : exception + float :=
  match parse (list_ascii_of_string s) with
  | None => inl invalid_argument
  | Some (OutOfRange, _) => inl out_of_range
  | Some (Number x, _) => inr x
  end.

(** [while (iss >> value) values.push_back(value);]: the numbers at the
    head of the text, up to the first thing that is not one. *)
Fixpoint extract (fuel : nat) (l : list ascii) : list float :=
  match fuel with
  | O => []
  | S fuel' =>
      match parse l with
      | Some (Number x, rest) => x :: extract fuel' rest
      | _ => []
      end
  end.

Definition get_node_array_double (e : element) (nm : string) : list float :=
  let l := list_ascii_of_string (text (child e nm)) in
  extract (List.length l) l.

(** The constants are given the values 3, 1 and 2; no source node is
    rejected. *)
Definition externals : Externals :=
  Build_Externals 3 1 2 element check_for_node get_node_value
                  get_node_value_bool get_node_array_double child children
                  stod (fun _ => None).

(** The state before the load: the defaults, the run mode chosen by the
    caller, no source and no warning yet. *)
Definition start (mode : Z) : world (E := externals) :=
  mkWorld (settings.set_run_mode mode (settings.default (H := externals)))
          [] [].

(** Sample documents. *)
Definition leaf (nm txt : string) : element := Element nm txt [].

Definition doc_empty : xml_node (Externals := externals) :=
  Element "settings" "" [].

Definition doc_full : xml_node (Externals := externals) :=
  Element "settings" "" [
    leaf "cross_sections" "/data/cross_sections.xml";
    leaf "multipole_library" "/data/wmp";
    Element "output" "" [leaf "path" "results"];
    leaf "temperature_default" "300.5";
    leaf "temperature_method" "  Interpolation ";
    leaf "temperature_tolerance" "25";
    leaf "temperature_multipole" "true";
    leaf "temperature_range" "900 250.5 7";
    Element "source" "" [SimpleXml.leaf "strength" "1"];
    Element "source" "" [SimpleXml.leaf "strength" "2"]
  ].

Definition doc_bogus : xml_node (Externals := externals) :=
  Element "settings" "" [
    leaf "cross_sections" "/data/cross_sections.xml";
    leaf "multipole_library" "/data/wmp";
    Element "output" "" [leaf "path" "results/"];
    leaf "temperature_default" "300.5";
    leaf "temperature_method" "bogus"
  ].

End SimpleXml.

(** ** More sample documents, and a constructor that rejects *)
Module Samples.

(** An unknown temperature method, with the nodes of lines 140-168 all
    there. *)
Definition doc_late_nodes : xml_node (Externals := SimpleXml.externals) :=
  SimpleXml.Element "settings" "" [
    SimpleXml.leaf "temperature_method" "Linear";
    SimpleXml.leaf "temperature_tolerance" "25";
    SimpleXml.leaf "temperature_multipole" "true";
    SimpleXml.leaf "temperature_range" "250.5 900";
    SimpleXml.Element "source" "" [SimpleXml.leaf "strength" "1"]
  ].

(** A state with one source in [external_sources] before the load. *)
Definition started_with_a_source : world (E := SimpleXml.externals) :=
  mkWorld (globals (SimpleXml.start 1)) [default_source] [].

(** The document access of [SimpleXml], with a constructor that rejects a
    [source] element without child elements. *)
Definition rejection : string := "Source element without content".

Definition strict : Externals :=
  Build_Externals 3 1 2 SimpleXml.element SimpleXml.check_for_node
                  SimpleXml.get_node_value SimpleXml.get_node_value_bool
                  SimpleXml.get_node_array_double SimpleXml.child
                  SimpleXml.children SimpleXml.stod
                  (fun n => match SimpleXml.kids n with
                            | [] => Some rejection
                            | _ :: _ => None
                            end).

Definition start_strict : world (E := strict) :=
  mkWorld (settings.set_run_mode 1 (settings.default (H := strict))) [] [].

(** Three [source] nodes, the second one without content. *)
(** A [temperature_default] that is no number, before an unknown method
    and a source. *)
Definition doc_bad_default : xml_node (Externals := SimpleXml.externals) :=
  SimpleXml.Element "settings" "" [
    SimpleXml.leaf "cross_sections" "/data/cross_sections.xml";
    SimpleXml.leaf "temperature_default" "abc";
    SimpleXml.leaf "temperature_method" "bogus";
    SimpleXml.leaf "temperature_tolerance" "25";
    SimpleXml.Element "source" "" [SimpleXml.leaf "strength" "1"]
  ].

(** A [temperature_tolerance] too large for a [double], after a range. *)
Definition doc_bad_tolerance : xml_node (Externals := SimpleXml.externals) :=
  SimpleXml.Element "settings" "" [
    SimpleXml.leaf "temperature_default" "300.5";
    SimpleXml.leaf "temperature_tolerance" "1e999";
    SimpleXml.leaf "temperature_range" "1 2";
    SimpleXml.Element "source" "" [SimpleXml.leaf "strength" "1"]
  ].

Definition doc_bad_source : xml_node (Externals := strict) :=
  SimpleXml.Element "settings" "" [
    SimpleXml.Element "source" "" [SimpleXml.leaf "strength" "1"];
    SimpleXml.Element "source" "" [];
    SimpleXml.Element "source" "" [SimpleXml.leaf "strength" "3"]
  ].

End Samples.

(** * Properties *)

(** ** Strings *)

Lemma list_ascii_of_string_app (a b : string) :
  list_ascii_of_string (a ++ b) =
  (list_ascii_of_string a ++ list_ascii_of_string b)%list.
Proof.
  induction a as [|c a IH]; simpl; [reflexivity|].
  now rewrite IH.
Qed.

Lemma string_of_list_ascii_app (a b : list ascii) :
  string_of_list_ascii (a ++ b)%list =
  string_of_list_ascii a ++ string_of_list_ascii b.
Proof.
  induction a as [|c a IH]; simpl; [reflexivity|].
  now rewrite IH.
Qed.

Lemma length_list_ascii (s : string) :
  List.length (list_ascii_of_string s) = String.length s.
Proof.
  induction s as [|c s IH]; simpl; [reflexivity|].
  now rewrite IH.
Qed.

(** [ends_with] with the ending ["/"] is true exactly on the strings that
    are some string followed by ["/"]. *)
Lemma ends_with_slash (s : string) :
  ends_with s "/" = true <-> has_suffix "/" s.
Proof.
  unfold ends_with, has_suffix. split.
  - destruct (String.length s <? String.length "/")%nat; [discriminate|].
    change (rev (list_ascii_of_string "/")) with ["/"%char].
    destruct (rev (list_ascii_of_string s)) as [|c l] eqn:Hrev;
      cbn [equal]; [discriminate|].
    rewrite andb_true_r. intros Hc. apply Ascii.eqb_eq in Hc. subst c.
    exists (string_of_list_ascii (rev l)).
    rewrite <- (string_of_list_ascii_of_string s).
    rewrite <- (rev_involutive (list_ascii_of_string s)), Hrev. simpl.
    now rewrite string_of_list_ascii_app.
  - intros [p ->].
    rewrite <- length_list_ascii, list_ascii_of_string_app, length_app.
    rewrite rev_app_distr.
    change (list_ascii_of_string "/") with ["/"%char].
    change (String.length "/") with 1%nat.
    destruct (List.length (list_ascii_of_string p)
              + List.length ["/"%char] <? 1)%nat eqn:Hlt.
    + apply Nat.ltb_lt in Hlt. simpl in Hlt. lia.
    + cbn [rev app equal]. now rewrite Ascii.eqb_refl.
Qed.

Lemma ends_with_append_slash (s : string) : ends_with (s ++ "/") "/" = true.
Proof. apply ends_with_slash. now exists s. Qed.

Lemma normalize_ends (s : string) : ends_with (normalize s) "/" = true.
Proof.
  unfold normalize. destruct (ends_with s "/") eqn:H; [exact H|].
  apply ends_with_append_slash.
Qed.

Lemma normalize_fixed (s : string) :
  ends_with s "/" = true -> normalize s = s.
Proof. unfold normalize. now intros ->. Qed.

Lemma normalize_idempotent (s : string) : normalize (normalize s) = normalize s.
Proof. apply normalize_fixed, normalize_ends. Qed.

(** ** The monad *)

Section Properties.

Context {E : Externals}.

Lemma bind_total {B} (m : M unit) (k : unit -> M B) (w : world) :
  total m -> bind m k w = k tt (final (m w)).
Proof. intros Hm. unfold bind. now rewrite (Hm w). Qed.

(** The same at one state: [m] returns from [w]. *)
Lemma bind_returns {B} (m : M unit) (k : unit -> M B) (w : world) :
  m w = Returned tt (final (m w)) -> bind m k w = k tt (final (m w)).
Proof.
  intros H. unfold bind.
  destruct (m w) as [[] w1|msg w1|e w1|w1]; try discriminate H.
  reflexivity.
Qed.

Lemma bind_Returned {A B} (m : M A) (k : A -> M B) w b w' :
  bind m k w = Returned b w' ->
  exists a w1, m w = Returned a w1 /\ k a w1 = Returned b w'.
Proof.
  unfold bind. destruct (m w) as [a w1|msg w1|e w1|w1]; try discriminate.
  intros H. now exists a, w1.
Qed.

Lemma bind_eq_Returned {A B} (m : M A) (k : A -> M B) w a w1 :
  m w = Returned a w1 -> bind m k w = k a w1.
Proof. intros H. unfold bind. now rewrite H. Qed.

Lemma bind_eq_Fatal {A B} (m : M A) (k : A -> M B) w msg w1 :
  m w = Fatal msg w1 -> bind m k w = Fatal msg w1.
Proof. intros H. unfold bind. now rewrite H. Qed.

Lemma bind_eq_Thrown {A B} (m : M A) (k : A -> M B) w e w1 :
  m w = Thrown e w1 -> bind m k w = Thrown e w1.
Proof. intros H. unfold bind. now rewrite H. Qed.

Lemma keeps_ret {A B} (f : world -> B) (a : A) : keeps f (ret a).
Proof. intros w. reflexivity. Qed.

Lemma keeps_bind {A B C} (f : world -> C) (m : M A) (k : A -> M B) :
  keeps f m -> (forall a, keeps f (k a)) -> keeps f (bind m k).
Proof.
  intros Hm Hk w. unfold bind. specialize (Hm w).
  destruct (m w) as [a w1|msg w1|e w1|w1]; simpl in *; try exact Hm.
  now rewrite (Hk a w1).
Qed.

Lemma keeps_if {A B} (f : world -> B) (b : bool) (m1 m2 : M A) :
  keeps f m1 -> keeps f m2 -> keeps f (if b then m1 else m2).
Proof. now destruct b. Qed.

Lemma keeps_when {B} (f : world -> B) (b : bool) (m : M unit) :
  keeps f m -> keeps f (when b m).
Proof. intros H. unfold when. apply keeps_if; [exact H|apply keeps_ret]. Qed.

Lemma keeps_get {B} (f : world -> B) : keeps f get.
Proof. intros w. reflexivity. Qed.

Lemma keeps_get_sources {B} (f : world -> B) : keeps f get_sources.
Proof. intros w. reflexivity. Qed.

Lemma keeps_fatal_error {A B} (f : world -> B) (msg : string) :
  keeps f (fatal_error (A := A) msg).
Proof. intros w. reflexivity. Qed.

Lemma keeps_call_stod {B} (f : world -> B) (s : string) :
  keeps f (call_stod s).
Proof. intros w. unfold call_stod. now destruct (stod s). Qed.

Lemma keeps_index {B} (f : world -> B) (v : list float) (i : nat) :
  keeps f (index v i).
Proof. intros w. unfold index. now destruct (nth_error v i). Qed.

Lemma keeps_modify {B} (f : world -> B) (g : settings.t -> settings.t) :
  (forall s l ws, f (mkWorld (g s) l ws) = f (mkWorld s l ws)) ->
  keeps f (modify g).
Proof. intros H [s l ws]. simpl. apply H. Qed.

Lemma keeps_warning {B} (f : world -> B) (msg : string) :
  (forall s l ws, f (mkWorld s l (ws ++ [msg])%list) = f (mkWorld s l ws)) ->
  keeps f (warning msg).
Proof. intros H [s l ws]. simpl. apply H. Qed.

Lemma keeps_push_back {B} (f : world -> B) (x : SourceDistribution xml_node) :
  (forall s l ws, f (mkWorld s (l ++ [x])%list ws) = f (mkWorld s l ws)) ->
  keeps f (push_back x).
Proof. intros H [s l ws]. simpl. apply H. Qed.

Lemma keeps_emplace_back {B} (f : world -> B) (n : xml_node) :
  (forall x s l ws, f (mkWorld s (l ++ [x])%list ws) = f (mkWorld s l ws)) ->
  keeps f (emplace_back n).
Proof.
  intros H. unfold emplace_back. destruct (source_error n).
  - apply keeps_fatal_error.
  - apply keeps_push_back, H.
Qed.

Lemma keeps_for_each {A B} (f : world -> B) (xs : list A) (body : A -> M unit) :
  (forall x, keeps f (body x)) -> keeps f (for_each xs body).
Proof.
  intros H. induction xs as [|x xs IH]; simpl.
  - apply keeps_ret.
  - apply keeps_bind; [apply H|intros _; exact IH].
Qed.

(** Decomposes a [keeps] goal along the code; what is left are the
    statements that write to the observed part of the state. *)
Ltac keeps_step :=
  first
    [ apply keeps_ret | apply keeps_get | apply keeps_get_sources
    | apply keeps_fatal_error | apply keeps_call_stod | apply keeps_index
    | apply keeps_bind; [|intros ?]
    | apply keeps_when | apply keeps_if
    | apply keeps_for_each; intros ?
    | apply keeps_modify; intros; reflexivity
    | apply keeps_warning; intros; reflexivity
    | apply keeps_push_back; intros; reflexivity
    | apply keeps_emplace_back; intros; reflexivity ].

Ltac keeps_tac := cbv zeta; repeat keeps_step.

Lemma total_ret : total (ret tt).
Proof. intros w. reflexivity. Qed.

Lemma total_modify (g : settings.t -> settings.t) : total (modify g).
Proof. intros w. reflexivity. Qed.

Lemma total_warning (msg : string) : total (warning msg).
Proof. intros w. reflexivity. Qed.

Lemma total_seq (m k : M unit) : total m -> total k -> total (m ;; k).
Proof.
  intros Hm Hk w. unfold bind. rewrite (Hm w). simpl. apply Hk.
Qed.

Lemma total_get (k : settings.t -> M unit) :
  (forall s, total (k s)) -> total (s <- get ;; k s).
Proof. intros Hk w. unfold bind, get. apply Hk. Qed.

Lemma total_when (b : bool) (m : M unit) : total m -> total (when b m).
Proof. intros H. destruct b; [exact H|apply total_ret]. Qed.

Ltac total_tac :=
  cbv zeta;
  repeat first
    [ apply total_ret | apply total_modify | apply total_warning
    | apply total_when | apply total_seq | apply total_get; intros ? ].

(** ** The steps of [read_settings], one by one *)

Implicit Types (root : xml_node) (w : world).

(** *** Lines 87-94: the deprecated [cross_sections] *)

Lemma read_cross_sections_total root : total (read_cross_sections root).
Proof. unfold read_cross_sections. total_tac. Qed.

Lemma read_cross_sections_final root w :
  final (read_cross_sections root w) =
  if check_for_node root "cross_sections" then
    mkWorld (settings.set_path_cross_sections
               (get_node_value root "cross_sections" false false) (globals w))
            (external_sources w)
            (warnings w ++ [cross_sections_deprecated])%list
  else w.
Proof.
  unfold read_cross_sections.
  now destruct (check_for_node root "cross_sections").
Qed.

(** *** Lines 97-109: the deprecated [multipole_library] *)

Lemma read_multipole_library_total root : total (read_multipole_library root).
Proof. unfold read_multipole_library. total_tac. Qed.

Lemma read_multipole_library_plotting root w :
  settings.run_mode (globals w) = RUN_MODE_PLOTTING ->
  final (read_multipole_library root w) = w.
Proof.
  intros Hmode. unfold read_multipole_library, bind, get.
  now rewrite Hmode, Z.eqb_refl.
Qed.

Lemma read_multipole_library_path root w :
  settings.run_mode (globals w) <> RUN_MODE_PLOTTING ->
  settings.path_multipole (globals (final (read_multipole_library root w))) =
  normalize (if check_for_node root "multipole_library"
             then get_node_value root "multipole_library" false false
             else settings.path_multipole (globals w)).
Proof.
  intros Hmode. apply Z.eqb_neq in Hmode.
  unfold read_multipole_library, bind, get, normalize. rewrite Hmode.
  destruct (check_for_node root "multipole_library"); simpl.
  - now destruct (ends_with _ "/").
  - now destruct (ends_with (settings.path_multipole (globals w)) "/").
Qed.

Lemma read_multipole_library_warnings root w :
  warnings (final (read_multipole_library root w)) =
  (warnings w ++
   if negb (settings.run_mode (globals w) =? RUN_MODE_PLOTTING)%Z
      && check_for_node root "multipole_library"
   then [multipole_library_deprecated] else [])%list.
Proof.
  unfold read_multipole_library, bind, get.
  destruct (settings.run_mode (globals w) =? RUN_MODE_PLOTTING)%Z; simpl.
  - now rewrite app_nil_r.
  - destruct (check_for_node root "multipole_library"); simpl.
    + now destruct (ends_with _ "/").
    + rewrite app_nil_r.
      now destruct (ends_with (settings.path_multipole (globals w)) "/").
Qed.

(** *** Lines 112-124: the output directory *)

Lemma read_output_total root : total (read_output root).
Proof. unfold read_output. total_tac. Qed.

Lemma read_output_path root w :
  check_for_node root "output" = true ->
  check_for_node (child root "output") "path" = true ->
  settings.path_output (globals (final (read_output root w))) =
  normalize (get_node_value (child root "output") "path" false false).
Proof.
  intros H1 H2. unfold read_output, bind, get, normalize.
  rewrite H1. cbv zeta. simpl. rewrite H2. simpl.
  now destruct (ends_with _ "/").
Qed.

(** *** Lines 127-129 and 140-142: the two numbers *)

Lemma converts_value (s : string) :
  converts s = true -> exists x, stod s = inr x.
Proof. unfold converts. destruct (stod s) as [e|x]; [discriminate|eauto]. Qed.

Lemma read_temperature_default_spec root w :
  read_temperature_default root w =
  if negb (check_for_node root "temperature_default") then Returned tt w
  else
    match stod (get_node_value root "temperature_default" false false) with
    | inr x =>
        Returned tt (mkWorld (settings.set_temperature_default x (globals w))
                             (external_sources w) (warnings w))
    | inl e => Thrown e w
    end.
Proof.
  unfold read_temperature_default, call_stod, bind.
  destruct (check_for_node root "temperature_default"); simpl;
    [|reflexivity].
  now destruct (stod _).
Qed.

Lemma read_temperature_default_converts root w :
  default_converts root = true ->
  read_temperature_default root w =
  Returned tt (final (read_temperature_default root w)).
Proof.
  unfold default_converts, converts. rewrite read_temperature_default_spec.
  destruct (check_for_node root "temperature_default"); simpl;
    [|reflexivity].
  destruct (stod _); [discriminate|reflexivity].
Qed.

Lemma read_temperature_default_Returned root w w' :
  read_temperature_default root w = Returned tt w' ->
  default_converts root = true.
Proof.
  unfold default_converts, converts. rewrite read_temperature_default_spec.
  destruct (check_for_node root "temperature_default"); simpl;
    [|reflexivity].
  destruct (stod _); [discriminate|reflexivity].
Qed.

Lemma read_temperature_default_value root w x :
  check_for_node root "temperature_default" = true ->
  stod (get_node_value root "temperature_default" false false) = inr x ->
  settings.temperature_default
    (globals (final (read_temperature_default root w))) = x.
Proof.
  intros Hnode Hx. now rewrite read_temperature_default_spec, Hnode, Hx.
Qed.

Lemma read_temperature_default_throws root w e :
  check_for_node root "temperature_default" = true ->
  stod (get_node_value root "temperature_default" false false) = inl e ->
  read_temperature_default root w = Thrown e w.
Proof.
  intros Hnode He. now rewrite read_temperature_default_spec, Hnode, He.
Qed.

Lemma read_temperature_tolerance_spec root w :
  read_temperature_tolerance root w =
  if negb (check_for_node root "temperature_tolerance") then Returned tt w
  else
    match stod (get_node_value root "temperature_tolerance" false false) with
    | inr x =>
        Returned tt (mkWorld (settings.set_temperature_tolerance x (globals w))
                             (external_sources w) (warnings w))
    | inl e => Thrown e w
    end.
Proof.
  unfold read_temperature_tolerance, call_stod, bind.
  destruct (check_for_node root "temperature_tolerance"); simpl;
    [|reflexivity].
  now destruct (stod _).
Qed.

Lemma read_temperature_tolerance_converts root w :
  tolerance_converts root = true ->
  read_temperature_tolerance root w =
  Returned tt (final (read_temperature_tolerance root w)).
Proof.
  unfold tolerance_converts, converts.
  rewrite read_temperature_tolerance_spec.
  destruct (check_for_node root "temperature_tolerance"); simpl;
    [|reflexivity].
  destruct (stod _); [discriminate|reflexivity].
Qed.

Lemma read_temperature_tolerance_Returned root w w' :
  read_temperature_tolerance root w = Returned tt w' ->
  tolerance_converts root = true.
Proof.
  unfold tolerance_converts, converts.
  rewrite read_temperature_tolerance_spec.
  destruct (check_for_node root "temperature_tolerance"); simpl;
    [|reflexivity].
  destruct (stod _); [discriminate|reflexivity].
Qed.

Lemma read_temperature_tolerance_value root w x :
  check_for_node root "temperature_tolerance" = true ->
  stod (get_node_value root "temperature_tolerance" false false) = inr x ->
  settings.temperature_tolerance
    (globals (final (read_temperature_tolerance root w))) = x.
Proof.
  intros Hnode Hx. now rewrite read_temperature_tolerance_spec, Hnode, Hx.
Qed.

Lemma read_temperature_tolerance_throws root w e :
  check_for_node root "temperature_tolerance" = true ->
  stod (get_node_value root "temperature_tolerance" false false) = inl e ->
  read_temperature_tolerance root w = Thrown e w.
Proof.
  intros Hnode He. now rewrite read_temperature_tolerance_spec, Hnode, He.
Qed.

(** *** Lines 130-139 and 143-145: the method and the flag *)

Lemma read_temperature_method_spec root w :
  read_temperature_method root w =
  let temp_str := get_node_value root "temperature_method" true true in
  if negb (check_for_node root "temperature_method") then Returned tt w
  else if (temp_str =? "nearest")%string then
    Returned tt (mkWorld (settings.set_temperature_method
                            TEMPERATURE_NEAREST (globals w))
                         (external_sources w) (warnings w))
  else if (temp_str =? "interpolation")%string then
    Returned tt (mkWorld (settings.set_temperature_method
                            TEMPERATURE_INTERPOLATION (globals w))
                         (external_sources w) (warnings w))
  else Fatal ("Unknown temperature method: " ++ temp_str) w.
Proof.
  unfold read_temperature_method. cbv zeta.
  destruct (check_for_node root "temperature_method"); simpl; [|reflexivity].
  destruct (_ =? "nearest")%string;
    [reflexivity|].
  now destruct (_ =? "interpolation")%string.
Qed.

Lemma read_temperature_method_nearest root w :
  check_for_node root "temperature_method" = true ->
  get_node_value root "temperature_method" true true = "nearest" ->
  read_temperature_method root w =
  Returned tt (mkWorld (settings.set_temperature_method
                          TEMPERATURE_NEAREST (globals w))
                       (external_sources w) (warnings w)).
Proof.
  intros Hnode Htoken. rewrite read_temperature_method_spec. cbv zeta.
  now rewrite Hnode, Htoken.
Qed.

Lemma read_temperature_method_interpolation root w :
  check_for_node root "temperature_method" = true ->
  get_node_value root "temperature_method" true true = "interpolation" ->
  read_temperature_method root w =
  Returned tt (mkWorld (settings.set_temperature_method
                          TEMPERATURE_INTERPOLATION (globals w))
                       (external_sources w) (warnings w)).
Proof.
  intros Hnode Htoken. rewrite read_temperature_method_spec. cbv zeta.
  now rewrite Hnode, Htoken.
Qed.

Lemma read_temperature_method_unknown root w :
  check_for_node root "temperature_method" = true ->
  get_node_value root "temperature_method" true true <> "nearest" ->
  get_node_value root "temperature_method" true true <> "interpolation" ->
  read_temperature_method root w =
  Fatal ("Unknown temperature method: "
         ++ get_node_value root "temperature_method" true true) w.
Proof.
  intros Hnode H1 H2. rewrite read_temperature_method_spec. cbv zeta.
  apply String.eqb_neq in H1, H2. now rewrite Hnode, H1, H2.
Qed.

Lemma read_temperature_method_accepted root w :
  method_accepted root = true ->
  read_temperature_method root w =
  Returned tt (final (read_temperature_method root w)).
Proof.
  unfold method_accepted. rewrite read_temperature_method_spec. cbv zeta.
  destruct (check_for_node root "temperature_method"); simpl; [|reflexivity].
  destruct (_ =? "nearest")%string;
    [reflexivity|].
  destruct (_ =? "interpolation")%string;
    [reflexivity|discriminate].
Qed.

Lemma read_temperature_method_Returned root w w' :
  read_temperature_method root w = Returned tt w' ->
  method_accepted root = true.
Proof.
  unfold method_accepted. rewrite read_temperature_method_spec. cbv zeta.
  destruct (check_for_node root "temperature_method"); simpl; [|reflexivity].
  destruct (_ =? "nearest")%string;
    [reflexivity|].
  destruct (_ =? "interpolation")%string;
    [reflexivity|discriminate].
Qed.

Lemma method_rejected root :
  method_accepted root = false ->
  check_for_node root "temperature_method" = true
  /\ get_node_value root "temperature_method" true true <> "nearest"
  /\ get_node_value root "temperature_method" true true <> "interpolation".
Proof.
  unfold method_accepted. intros H.
  apply orb_false_iff in H. destruct H as [H Hi].
  apply orb_false_iff in H. destruct H as [Hn Hnear].
  apply negb_false_iff in Hn. apply String.eqb_neq in Hnear, Hi.
  now repeat split.
Qed.

Lemma read_temperature_multipole_total root :
  total (read_temperature_multipole root).
Proof. unfold read_temperature_multipole. total_tac. Qed.

(** *** Lines 146-150: the temperature range *)

Lemma read_temperature_range_spec root w :
  read_temperature_range root w =
  if negb (check_for_node root "temperature_range") then Returned tt w
  else
    match get_node_array_double root "temperature_range" with
    | [] => Undefined w
    | [r0] =>
        Undefined
          (mkWorld (settings.set_temperature_range
                      (r0, snd (settings.temperature_range (globals w)))
                      (globals w))
                   (external_sources w) (warnings w))
    | r0 :: r1 :: _ =>
        Returned tt
          (mkWorld (settings.set_temperature_range (r0, r1)
                      (settings.set_temperature_range
                         (r0, snd (settings.temperature_range (globals w)))
                         (globals w)))
                   (external_sources w) (warnings w))
    end.
Proof.
  unfold read_temperature_range. cbv zeta.
  destruct (check_for_node root "temperature_range"); simpl; [|reflexivity].
  destruct (get_node_array_double root "temperature_range") as [|r0 [|r1 l]];
    reflexivity.
Qed.

Lemma read_temperature_range_indexable root w :
  range_indexable root = true ->
  read_temperature_range root w =
  Returned tt (final (read_temperature_range root w)).
Proof.
  unfold range_indexable. rewrite read_temperature_range_spec.
  destruct (check_for_node root "temperature_range"); simpl; [|reflexivity].
  destruct (get_node_array_double root "temperature_range") as [|r0 [|r1 l]];
    simpl; (discriminate || reflexivity).
Qed.

Lemma read_temperature_range_Returned root w w' :
  read_temperature_range root w = Returned tt w' ->
  range_indexable root = true.
Proof.
  unfold range_indexable. rewrite read_temperature_range_spec.
  destruct (check_for_node root "temperature_range"); simpl; [|reflexivity].
  destruct (get_node_array_double root "temperature_range") as [|r0 [|r1 l]];
    simpl; (discriminate || reflexivity).
Qed.

Lemma read_temperature_range_pair root w r0 r1 rest :
  check_for_node root "temperature_range" = true ->
  get_node_array_double root "temperature_range" = r0 :: r1 :: rest ->
  exists w',
    read_temperature_range root w = Returned tt w'
    /\ settings.temperature_range (globals w') = (r0, r1).
Proof.
  intros Hnode Harray. rewrite read_temperature_range_spec, Hnode, Harray.
  simpl. eauto.
Qed.

Lemma range_has_two_entries root :
  range_indexable root = true ->
  check_for_node root "temperature_range" = true ->
  exists r0 r1 rest,
    get_node_array_double root "temperature_range" = r0 :: r1 :: rest.
Proof.
  unfold range_indexable. intros H Hnode. rewrite Hnode in H. simpl in H.
  destruct (get_node_array_double root "temperature_range")
    as [|r0 [|r1 rest]]; try discriminate H.
  now exists r0, r1, rest.
Qed.

Lemma read_temperature_range_not_Fatal_nor_Thrown root w :
  match read_temperature_range root w with
  | Returned _ _ => range_indexable root = true
  | Fatal _ _ => False
  | Thrown _ _ => False
  | Undefined _ => range_indexable root = false
  end.
Proof.
  unfold range_indexable. rewrite read_temperature_range_spec.
  destruct (check_for_node root "temperature_range"); simpl; [|reflexivity].
  destruct (get_node_array_double root "temperature_range") as [|r0 [|r1 l]];
    reflexivity.
Qed.

(** *** Lines 156-168: the external sources *)

Lemma emplace_all_accepted (nodes : list xml_node) w :
  forallb accepted nodes = true ->
  for_each nodes emplace_back w =
  Returned tt (mkWorld (globals w)
                       (external_sources w
                        ++ map SourceDistribution_xml nodes)%list
                       (warnings w)).
Proof.
  revert w. induction nodes as [|n nodes IH]; intros [s l ws]; simpl.
  - intros _. unfold ret. now rewrite app_nil_r.
  - intros H. apply andb_true_iff in H. destruct H as [Hn Hrest].
    unfold bind, emplace_back. unfold accepted in Hn.
    destruct (source_error n); [discriminate|]. simpl.
    rewrite (IH _ Hrest). simpl. now rewrite <- app_assoc.
Qed.

Lemma emplace_all_rejected (pre post : list xml_node) n msg w :
  forallb accepted pre = true ->
  source_error n = Some msg ->
  for_each (pre ++ n :: post)%list emplace_back w =
  Fatal msg (mkWorld (globals w)
                     (external_sources w ++ map SourceDistribution_xml pre)%list
                     (warnings w)).
Proof.
  intros Hpre Hn. revert w Hpre.
  induction pre as [|p pre IH]; intros [s l ws]; simpl.
  - intros _. unfold bind, emplace_back. rewrite Hn. simpl.
    now rewrite app_nil_r.
  - intros H. apply andb_true_iff in H. destruct H as [Hp Hpre].
    unfold accepted in Hp. unfold bind at 1. unfold emplace_back at 1.
    destruct (source_error p); [discriminate|]. simpl.
    rewrite (IH _ Hpre). simpl. now rewrite <- app_assoc.
Qed.

Lemma emplace_all_outcome (nodes : list xml_node) w :
  match for_each nodes emplace_back w with
  | Returned _ _ => forallb accepted nodes = true
  | Fatal msg _ => exists n, In n nodes /\ source_error n = Some msg
  | Thrown _ _ => False
  | Undefined _ => False
  end.
Proof.
  revert w. induction nodes as [|n nodes IH]; intros w; simpl.
  - reflexivity.
  - unfold bind at 1. unfold emplace_back at 1. unfold accepted at 1.
    destruct (source_error n) as [msg|] eqn:Hn; simpl.
    + exists n. split; [now left|exact Hn].
    + specialize (IH (mkWorld (globals w)
                              (external_sources w
                               ++ [SourceDistribution_xml n])%list
                              (warnings w))).
      destruct (for_each nodes emplace_back _) as [a w'|msg w'|e w'|w'].
      * exact IH.
      * destruct IH as (x & Hx & Hmsg). exists x. split; [now right|exact Hmsg].
      * exact IH.
      * exact IH.
Qed.

Lemma read_external_sources_outcome root w :
  match read_external_sources root w with
  | Returned _ _ => sources_accepted root = true
  | Fatal msg _ =>
      exists n, In n (children root "source") /\ source_error n = Some msg
  | Thrown _ _ => False
  | Undefined _ => False
  end.
Proof.
  unfold read_external_sources, sources_accepted. unfold bind at 1.
  pose proof (emplace_all_outcome (children root "source") w) as H.
  destruct (for_each (children root "source") emplace_back w)
    as [a w1|msg w1|e w1|w1]; try exact H.
  unfold bind, get_sources.
  destruct (external_sources w1); exact H.
Qed.

Lemma read_external_sources_accepted root w :
  sources_accepted root = true ->
  read_external_sources root w =
  Returned tt
    (mkWorld (globals w)
       (match (external_sources w
               ++ map SourceDistribution_xml (children root "source"))%list with
        | [] => [default_source]
        | l => l
        end)
       (warnings w)).
Proof.
  intros H. unfold read_external_sources, bind.
  rewrite (emplace_all_accepted _ _ H). unfold get_sources. simpl.
  destruct (external_sources w ++ _)%list; reflexivity.
Qed.

Lemma read_external_sources_Returned root w w' :
  read_external_sources root w = Returned tt w' ->
  sources_accepted root = true.
Proof.
  intros H. pose proof (read_external_sources_outcome root w) as Ho.
  now rewrite H in Ho.
Qed.

(** ** The whole of [read_settings] *)

Ltac unfold_steps :=
  unfold read_cross_sections, read_multipole_library, read_output,
    read_temperature_default, read_temperature_method,
    read_temperature_tolerance, read_temperature_multipole,
    read_temperature_range, read_external_sources.

Local Abbreviation path_cross_sections_of :=
  (fun w => settings.path_cross_sections (globals w)).
Local Abbreviation path_multipole_of :=
  (fun w => settings.path_multipole (globals w)).
Local Abbreviation path_output_of :=
  (fun w => settings.path_output (globals w)).
Local Abbreviation run_mode_of :=
  (fun w => settings.run_mode (globals w)).
Local Abbreviation temperature_default_of :=
  (fun w => settings.temperature_default (globals w)).
Local Abbreviation temperature_method_of :=
  (fun w => settings.temperature_method (globals w)).
Local Abbreviation temperature_tolerance_of :=
  (fun w => settings.temperature_tolerance (globals w)).
Local Abbreviation temperature_multipole_of :=
  (fun w => settings.temperature_multipole (globals w)).
Local Abbreviation temperature_range_of :=
  (fun w => settings.temperature_range (globals w)).

Local Abbreviation from_range root :=
  (read_temperature_range root ;; read_external_sources root).
Local Abbreviation from_flag root :=
  (read_temperature_multipole root ;; from_range root).
Local Abbreviation from_tolerance root :=
  (read_temperature_tolerance root ;; from_flag root).
Local Abbreviation from_method root :=
  (read_temperature_method root ;; from_tolerance root).
Local Abbreviation from_default root :=
  (read_temperature_default root ;; from_method root).
Local Abbreviation from_output root := (read_output root ;; from_default root).
Local Abbreviation from_multipole root :=
  (read_multipole_library root ;; from_output root).

(** The states along a load on which nothing stops: after line 139, and
    before line 146. *)
Local Abbreviation after_method root w :=
  (final (read_temperature_method root (before_method root w))).
Local Abbreviation before_range root w :=
  (final (read_temperature_multipole root
     (final (read_temperature_tolerance root (after_method root w))))).

Lemma keeps_Returned {A B} (f : world -> B) (m : M A) w a w' :
  keeps f m -> m w = Returned a w' -> f w' = f w.
Proof. intros K H. rewrite <- (K w), H. reflexivity. Qed.

Lemma final_bind_total {B} (m : M unit) (k : unit -> M B) w :
  total m -> final (bind m k w) = final (k tt (final (m w))).
Proof. intros H. now rewrite (bind_total _ _ _ H). Qed.

(** Lines 87-124 always return: the load goes on from [before_default]. *)
Lemma read_settings_from_default root w :
  read_settings root w = from_default root (before_default root w).
Proof.
  unfold read_settings, before_default.
  rewrite (bind_total _ _ _ (read_cross_sections_total root)).
  rewrite (bind_total _ _ _ (read_multipole_library_total root)).
  rewrite (bind_total _ _ _ (read_output_total root)).
  reflexivity.
Qed.

(** When line 128 does not throw, the load goes on from [before_method]. *)
Lemma read_settings_from_method root w :
  default_converts root = true ->
  read_settings root w = from_method root (before_method root w).
Proof.
  intros Hdefault. rewrite read_settings_from_default. unfold before_method.
  apply bind_returns. now apply read_temperature_default_converts.
Qed.

Lemma read_settings_from_range root w :
  default_converts root = true ->
  method_accepted root = true ->
  tolerance_converts root = true ->
  read_settings root w = from_range root (before_range root w).
Proof.
  intros Hdefault Hmethod Htolerance.
  rewrite (read_settings_from_method _ _ Hdefault).
  rewrite (bind_returns _ _ _
             (read_temperature_method_accepted root _ Hmethod)).
  rewrite (bind_returns _ _ _
             (read_temperature_tolerance_converts root _ Htolerance)).
  now rewrite (bind_total _ _ _ (read_temperature_multipole_total root)).
Qed.

Lemma before_default_keeps {B} (f : world -> B) root w :
  keeps f (read_cross_sections root) ->
  keeps f (read_multipole_library root) ->
  keeps f (read_output root) ->
  f (before_default root w) = f w.
Proof.
  intros K1 K2 K3. unfold before_default. now rewrite K3, K2, K1.
Qed.

Lemma before_method_keeps {B} (f : world -> B) root w :
  keeps f (read_cross_sections root) ->
  keeps f (read_multipole_library root) ->
  keeps f (read_output root) ->
  keeps f (read_temperature_default root) ->
  f (before_method root w) = f w.
Proof.
  intros K1 K2 K3 K4. unfold before_method. rewrite K4.
  now apply before_default_keeps.
Qed.

Lemma before_range_keeps {B} (f : world -> B) root w :
  keeps f (read_cross_sections root) ->
  keeps f (read_multipole_library root) ->
  keeps f (read_output root) ->
  keeps f (read_temperature_default root) ->
  keeps f (read_temperature_method root) ->
  keeps f (read_temperature_tolerance root) ->
  keeps f (read_temperature_multipole root) ->
  f (before_range root w) = f w.
Proof.
  intros K1 K2 K3 K4 K5 K6 K7. rewrite K7, K6, K5.
  now apply before_method_keeps.
Qed.

Lemma before_method_keeps_temperature_method root w :
  settings.temperature_method (globals (before_method root w)) =
  settings.temperature_method (globals w).
Proof.
  apply (before_method_keeps temperature_method_of);
    unfold_steps; keeps_tac.
Qed.

Lemma before_method_keeps_external_sources root w :
  external_sources (before_method root w) = external_sources w.
Proof.
  apply (before_method_keeps external_sources); unfold_steps; keeps_tac.
Qed.

(** With the numbers converted, the method accepted and the range
    indexable, lines 87-150 return and leave [external_sources] alone: the
    load goes on at line 156. *)
Lemma read_settings_at_sources root w :
  default_converts root = true ->
  method_accepted root = true ->
  tolerance_converts root = true ->
  range_indexable root = true ->
  exists w8,
    read_settings root w = read_external_sources root w8
    /\ external_sources w8 = external_sources w.
Proof.
  intros Hdefault Hmethod Htolerance Hrange.
  rewrite (read_settings_from_range _ _ Hdefault Hmethod Htolerance).
  rewrite (bind_returns _ _ _
             (read_temperature_range_indexable root _ Hrange)).
  eexists. split; [reflexivity|].
  rewrite (ltac:(unfold_steps; keeps_tac)
            : keeps external_sources (read_temperature_range root)).
  apply (before_range_keeps external_sources); unfold_steps; keeps_tac.
Qed.

Lemma loadable_parts root :
  loadable root = true ->
  default_converts root = true /\ method_accepted root = true
  /\ tolerance_converts root = true /\ range_indexable root = true
  /\ sources_accepted root = true.
Proof.
  unfold loadable. intros H.
  apply andb_true_iff in H. destruct H as [H H5].
  apply andb_true_iff in H. destruct H as [H H4].
  apply andb_true_iff in H. destruct H as [H H3].
  apply andb_true_iff in H. destruct H as [H1 H2].
  now repeat split.
Qed.

(** The load returns on the documents that are [loadable]. *)
Lemma read_settings_loadable root w :
  loadable root = true -> exists w', read_settings root w = Returned tt w'.
Proof.
  intros H. destruct (loadable_parts root H) as (H1 & H2 & H3 & H4 & H5).
  destruct (read_settings_at_sources root w H1 H2 H3 H4) as (w8 & Hload & _).
  rewrite Hload, (read_external_sources_accepted _ _ H5). eauto.
Qed.

(** The steps of a load that the model follows to its return. *)
Lemma read_settings_steps root w w' :
  read_settings root w = Returned tt w' ->
  exists w1 w2 w3 w4 w5 w6 w7 w8,
    read_cross_sections root w = Returned tt w1
    /\ read_multipole_library root w1 = Returned tt w2
    /\ read_output root w2 = Returned tt w3
    /\ read_temperature_default root w3 = Returned tt w4
    /\ read_temperature_method root w4 = Returned tt w5
    /\ read_temperature_tolerance root w5 = Returned tt w6
    /\ read_temperature_multipole root w6 = Returned tt w7
    /\ read_temperature_range root w7 = Returned tt w8
    /\ read_external_sources root w8 = Returned tt w'.
Proof.
  unfold read_settings. intros H.
  apply bind_Returned in H. destruct H as ([] & w1 & H1 & H).
  apply bind_Returned in H. destruct H as ([] & w2 & H2 & H).
  apply bind_Returned in H. destruct H as ([] & w3 & H3 & H).
  apply bind_Returned in H. destruct H as ([] & w4 & H4 & H).
  apply bind_Returned in H. destruct H as ([] & w5 & H5 & H).
  apply bind_Returned in H. destruct H as ([] & w6 & H6 & H).
  apply bind_Returned in H. destruct H as ([] & w7 & H7 & H).
  apply bind_Returned in H. destruct H as ([] & w8 & H8 & H).
  exists w1, w2, w3, w4, w5, w6, w7, w8. now repeat split.
Qed.

Lemma read_settings_Returned root w w' :
  read_settings root w = Returned tt w' -> loadable root = true.
Proof.
  intros H. apply read_settings_steps in H.
  destruct H as (w1 & w2 & w3 & w4 & w5 & w6 & w7 & w8
                 & _ & _ & _ & H4 & H5 & H6 & _ & H8 & H9).
  unfold loadable.
  rewrite (read_temperature_default_Returned _ _ _ H4).
  rewrite (read_temperature_method_Returned _ _ _ H5).
  rewrite (read_temperature_tolerance_Returned _ _ _ H6).
  rewrite (read_temperature_range_Returned _ _ _ H8).
  now rewrite (read_external_sources_Returned _ _ _ H9).
Qed.

(** *** What the later steps leave alone *)

Lemma from_multipole_keeps_path_cross_sections root :
  keeps path_cross_sections_of (from_multipole root).
Proof. unfold_steps. keeps_tac. Qed.

Lemma read_cross_sections_keeps_path_multipole root :
  keeps path_multipole_of (read_cross_sections root).
Proof. unfold_steps. keeps_tac. Qed.

Lemma read_cross_sections_keeps_run_mode root :
  keeps run_mode_of (read_cross_sections root).
Proof. unfold_steps. keeps_tac. Qed.

Lemma from_output_keeps_path_multipole root :
  keeps path_multipole_of (from_output root).
Proof. unfold_steps. keeps_tac. Qed.

Lemma from_default_keeps_path_output root :
  keeps path_output_of (from_default root).
Proof. unfold_steps. keeps_tac. Qed.

Lemma from_output_keeps_warnings root : keeps warnings (from_output root).
Proof. unfold_steps. keeps_tac. Qed.

Lemma from_method_keeps_temperature_default root :
  keeps temperature_default_of (from_method root).
Proof. unfold_steps. keeps_tac. Qed.

Lemma from_tolerance_keeps_temperature_method root :
  keeps temperature_method_of (from_tolerance root).
Proof. unfold_steps. keeps_tac. Qed.

Lemma from_flag_keeps_temperature_tolerance root :
  keeps temperature_tolerance_of (from_flag root).
Proof. unfold_steps. keeps_tac. Qed.

Lemma from_range_keeps_temperature_multipole root :
  keeps temperature_multipole_of (from_range root).
Proof. unfold_steps. keeps_tac. Qed.

Lemma read_external_sources_keeps_temperature_range root :
  keeps temperature_range_of (read_external_sources root).
Proof. unfold_steps. keeps_tac. Qed.

Lemma read_settings_keeps_run_mode root :
  keeps run_mode_of (read_settings root).
Proof. unfold read_settings. unfold_steps. keeps_tac. Qed.

Lemma read_settings_keeps_energy_cutoff root :
  keeps (fun w => settings.energy_cutoff (globals w)) (read_settings root).
Proof. unfold read_settings. unfold_steps. keeps_tac. Qed.

(** The path fields as the load leaves them, however it ends. *)
Lemma read_settings_path_cross_sections root w :
  check_for_node root "cross_sections" = true ->
  settings.path_cross_sections (globals (final (read_settings root w))) =
  get_node_value root "cross_sections" false false.
Proof.
  intros H. unfold read_settings.
  rewrite (final_bind_total _ _ _ (read_cross_sections_total root)).
  rewrite (from_multipole_keeps_path_cross_sections root).
  now rewrite read_cross_sections_final, H.
Qed.

Lemma read_settings_path_multipole root w :
  settings.run_mode (globals w) <> RUN_MODE_PLOTTING ->
  settings.path_multipole (globals (final (read_settings root w))) =
  normalize (if check_for_node root "multipole_library"
             then get_node_value root "multipole_library" false false
             else settings.path_multipole (globals w)).
Proof.
  intros H. unfold read_settings.
  rewrite (final_bind_total _ _ _ (read_cross_sections_total root)).
  rewrite (final_bind_total _ _ _ (read_multipole_library_total root)).
  rewrite (from_output_keeps_path_multipole root).
  rewrite read_multipole_library_path.
  - now rewrite (read_cross_sections_keeps_path_multipole root w).
  - now rewrite (read_cross_sections_keeps_run_mode root w).
Qed.

Lemma read_settings_path_multipole_in_plotting root w :
  settings.run_mode (globals w) = RUN_MODE_PLOTTING ->
  settings.path_multipole (globals (final (read_settings root w))) =
  settings.path_multipole (globals w).
Proof.
  intros Hmode. unfold read_settings.
  rewrite (final_bind_total _ _ _ (read_cross_sections_total root)).
  rewrite (final_bind_total _ _ _ (read_multipole_library_total root)).
  rewrite (from_output_keeps_path_multipole root).
  rewrite read_multipole_library_plotting.
  - apply (read_cross_sections_keeps_path_multipole root w).
  - now rewrite (read_cross_sections_keeps_run_mode root w).
Qed.

Lemma read_settings_path_output root w :
  check_for_node root "output" = true ->
  check_for_node (child root "output") "path" = true ->
  settings.path_output (globals (final (read_settings root w))) =
  normalize (get_node_value (child root "output") "path" false false).
Proof.
  intros H1 H2. unfold read_settings.
  rewrite (final_bind_total _ _ _ (read_cross_sections_total root)).
  rewrite (final_bind_total _ _ _ (read_multipole_library_total root)).
  rewrite (final_bind_total _ _ _ (read_output_total root)).
  rewrite (from_default_keeps_path_output root).
  now apply read_output_path.
Qed.

(** The warnings that a load adds, however it ends. *)
Lemma read_settings_warnings root w :
  warnings (final (read_settings root w)) =
  (warnings w
   ++ (if check_for_node root "cross_sections"
       then [cross_sections_deprecated] else [])
   ++ (if negb (settings.run_mode (globals w) =? RUN_MODE_PLOTTING)%Z
          && check_for_node root "multipole_library"
       then [multipole_library_deprecated] else []))%list.
Proof.
  unfold read_settings.
  rewrite (final_bind_total _ _ _ (read_cross_sections_total root)).
  rewrite (final_bind_total _ _ _ (read_multipole_library_total root)).
  rewrite (from_output_keeps_warnings root).
  rewrite read_multipole_library_warnings.
  rewrite (read_cross_sections_keeps_run_mode root w).
  rewrite read_cross_sections_final.
  destruct (check_for_node root "cross_sections"); simpl.
  - now rewrite <- app_assoc.
  - reflexivity.
Qed.

Lemma deprecation_messages_differ :
  multipole_library_deprecated <> cross_sections_deprecated.
Proof. intros H. vm_compute in H. discriminate H. Qed.

(** The temperature fields as the load leaves them, however it ends once
    it has got past the lines that write them. *)
Lemma read_settings_temperature_default root w x :
  check_for_node root "temperature_default" = true ->
  stod (get_node_value root "temperature_default" false false) = inr x ->
  settings.temperature_default (globals (final (read_settings root w))) = x.
Proof.
  intros Hnode Hx.
  assert (Hdefault : default_converts root = true).
  { unfold default_converts, converts. now rewrite Hnode, Hx. }
  rewrite (read_settings_from_method _ _ Hdefault).
  rewrite (from_method_keeps_temperature_default root).
  now apply read_temperature_default_value.
Qed.

Lemma read_settings_temperature_method root w :
  default_converts root = true ->
  method_accepted root = true ->
  check_for_node root "temperature_method" = true ->
  settings.temperature_method (globals (final (read_settings root w))) =
  if (get_node_value root "temperature_method" true true =? "nearest")%string
  then TEMPERATURE_NEAREST else TEMPERATURE_INTERPOLATION.
Proof.
  intros Hdefault Hmethod Hnode.
  rewrite (read_settings_from_method _ _ Hdefault).
  unfold method_accepted in Hmethod. rewrite Hnode in Hmethod.
  simpl in Hmethod.
  destruct (_ =? "nearest")%string eqn:Hnear.
  - apply String.eqb_eq in Hnear.
    rewrite (bind_eq_Returned _ _ _ _ _
               (read_temperature_method_nearest root _ Hnode Hnear)).
    now rewrite (from_tolerance_keeps_temperature_method root).
  - simpl in Hmethod. apply String.eqb_eq in Hmethod.
    rewrite (bind_eq_Returned _ _ _ _ _
               (read_temperature_method_interpolation root _ Hnode Hmethod)).
    now rewrite (from_tolerance_keeps_temperature_method root).
Qed.

Lemma read_settings_temperature_tolerance root w x :
  default_converts root = true ->
  method_accepted root = true ->
  check_for_node root "temperature_tolerance" = true ->
  stod (get_node_value root "temperature_tolerance" false false) = inr x ->
  settings.temperature_tolerance (globals (final (read_settings root w))) = x.
Proof.
  intros Hdefault Hmethod Hnode Hx.
  assert (Htolerance : tolerance_converts root = true).
  { unfold tolerance_converts, converts. now rewrite Hnode, Hx. }
  rewrite (read_settings_from_method _ _ Hdefault).
  rewrite (bind_returns _ _ _
             (read_temperature_method_accepted root _ Hmethod)).
  rewrite (bind_returns _ _ _
             (read_temperature_tolerance_converts root _ Htolerance)).
  rewrite (from_flag_keeps_temperature_tolerance root).
  now apply read_temperature_tolerance_value.
Qed.

Lemma read_settings_temperature_multipole root w :
  default_converts root = true ->
  method_accepted root = true ->
  tolerance_converts root = true ->
  check_for_node root "temperature_multipole" = true ->
  settings.temperature_multipole (globals (final (read_settings root w))) =
  get_node_value_bool root "temperature_multipole".
Proof.
  intros Hdefault Hmethod Htolerance Hnode.
  rewrite (read_settings_from_method _ _ Hdefault).
  rewrite (bind_returns _ _ _
             (read_temperature_method_accepted root _ Hmethod)).
  rewrite (bind_returns _ _ _
             (read_temperature_tolerance_converts root _ Htolerance)).
  rewrite (final_bind_total _ _ _ (read_temperature_multipole_total root)).
  rewrite (from_range_keeps_temperature_multipole root).
  unfold read_temperature_multipole. now rewrite Hnode.
Qed.

Lemma read_settings_temperature_range root w r0 r1 rest :
  check_for_node root "temperature_range" = true ->
  get_node_array_double root "temperature_range" = r0 :: r1 :: rest ->
  default_converts root = true ->
  method_accepted root = true ->
  tolerance_converts root = true ->
  settings.temperature_range (globals (final (read_settings root w))) =
  (r0, r1).
Proof.
  intros Hnode Harray Hdefault Hmethod Htolerance.
  rewrite (read_settings_from_range _ _ Hdefault Hmethod Htolerance).
  destruct (read_temperature_range_pair root (before_range root w)
              r0 r1 rest Hnode Harray) as (w8 & H8 & Hrange).
  rewrite (bind_eq_Returned _ _ _ _ _ H8).
  now rewrite (read_external_sources_keeps_temperature_range root).
Qed.

(** The sources when the load returns. *)
Lemma read_settings_sources root w w' :
  read_settings root w = Returned tt w' ->
  external_sources w' =
  match (external_sources w
         ++ map SourceDistribution_xml (children root "source"))%list with
  | [] => [default_source]
  | l => l
  end.
Proof.
  intros H. apply read_settings_steps in H.
  destruct H as (w1 & w2 & w3 & w4 & w5 & w6 & w7 & w8
                 & H1 & H2 & H3 & H4 & H5 & H6 & H7 & H8 & H).
  assert (Hsrc : external_sources w8 = external_sources w).
  { rewrite (keeps_Returned external_sources (read_temperature_range root)
               _ _ _ ltac:(unfold_steps; keeps_tac) H8).
    rewrite (keeps_Returned external_sources (read_temperature_multipole root)
               _ _ _ ltac:(unfold_steps; keeps_tac) H7).
    rewrite (keeps_Returned external_sources (read_temperature_tolerance root)
               _ _ _ ltac:(unfold_steps; keeps_tac) H6).
    rewrite (keeps_Returned external_sources (read_temperature_method root)
               _ _ _ ltac:(unfold_steps; keeps_tac) H5).
    rewrite (keeps_Returned external_sources (read_temperature_default root)
               _ _ _ ltac:(unfold_steps; keeps_tac) H4).
    rewrite (keeps_Returned external_sources (read_output root)
               _ _ _ ltac:(unfold_steps; keeps_tac) H3).
    rewrite (keeps_Returned external_sources (read_multipole_library root)
               _ _ _ ltac:(unfold_steps; keeps_tac) H2).
    apply (keeps_Returned external_sources (read_cross_sections root)
             _ _ _ ltac:(unfold_steps; keeps_tac) H1). }
  rewrite (read_external_sources_accepted _ _
             (read_external_sources_Returned _ _ _ H)) in H.
  injection H as <-. simpl. now rewrite Hsrc.
Qed.

(** ** The external sources *)

(** C1: on a document without [source] node, and with [external_sources]
    empty before the load, a load that returns leaves exactly one source in
    [external_sources]: a point at (0.0, 0.0, 0.0), isotropic, with a Watt
    spectrum of a = 0.988 and b = 2.249e-6.  The load returns whenever
    [std::stod] converts the two numbers, the temperature method is
    accepted and the temperature range has its two entries. *)
Theorem default_source_when_none root w :
  children root "source" = [] ->
  external_sources w = [] ->
  (forall w', read_settings root w = Returned tt w' ->
     external_sources w' =
       [SourceDistribution_parts (SpatialPoint 0.0 0.0 0.0) Isotropic
                                 (Watt 0.988 2.249e-6)]
     /\ List.length (external_sources w') = 1%nat)
  /\ (default_converts root = true -> method_accepted root = true ->
      tolerance_converts root = true -> range_indexable root = true ->
      exists w', read_settings root w = Returned tt w').
Proof.
  intros Hnone Hempty. split.
  - intros w' H. apply read_settings_sources in H.
    rewrite Hnone, Hempty in H. simpl in H. now rewrite H.
  - intros Hd Hm Ht Hr. apply read_settings_loadable.
    unfold loadable, sources_accepted. now rewrite Hd, Hm, Ht, Hr, Hnone.
Qed.

(** C2: on a document with N >= 1 [source] nodes, and with
    [external_sources] empty before the load, a load that returns leaves in
    [external_sources] the N sources built from the nodes, in the order of
    the document, and the default source is not among them.  The load
    returns whenever the document is [loadable]: [std::stod] converts the
    two numbers, the method is accepted, the range has its two entries and
    the constructor accepts every node. *)
Theorem document_sources_in_order root w :
  children root "source" <> [] ->
  external_sources w = [] ->
  (forall w', read_settings root w = Returned tt w' ->
     external_sources w' = map SourceDistribution_xml (children root "source")
     /\ List.length (external_sources w') = List.length (children root "source")
     /\ ~ In default_source (external_sources w'))
  /\ (loadable root = true -> exists w', read_settings root w = Returned tt w').
Proof.
  intros Hsome Hempty. split.
  - intros w' H. apply read_settings_sources in H.
    rewrite Hempty in H. simpl in H.
    destruct (children root "source") as [|n nodes]; [contradiction|].
    simpl in H. rewrite H. repeat split.
    + simpl. now rewrite length_map.
    + intros Hin. apply (in_map_iff SourceDistribution_xml (n :: nodes)) in Hin.
      destruct Hin as (x & Hx & _). discriminate Hx.
  - apply read_settings_loadable.
Qed.

(** ** The temperature method *)


(** ** The path normalizer *)

(** C4: the normalization of lines 106-108 and 120-122 appends one "/" to
    a string that does not end in "/", leaves a string that ends in "/"
    as it is, and is idempotent; the load leaves [path_output] as the
    normalized value of [output/path], and outside plotting mode it
    leaves [path_multipole] normalized once. *)
Theorem path_normalization root w :
  (forall s, ~ has_suffix "/" s -> normalize s = s ++ "/")
  /\ (forall s, has_suffix "/" s -> normalize s = s)
  /\ (forall s, normalize (normalize s) = normalize s)
  /\ (check_for_node root "output" = true ->
      check_for_node (child root "output") "path" = true ->
      settings.path_output (globals (final (read_settings root w))) =
      normalize (get_node_value (child root "output") "path" false false))
  /\ (settings.run_mode (globals w) <> RUN_MODE_PLOTTING ->
      settings.path_multipole (globals (final (read_settings root w))) =
      normalize (if check_for_node root "multipole_library"
                 then get_node_value root "multipole_library" false false
                 else settings.path_multipole (globals w))).
Proof.
  repeat split.
  - intros s H. unfold normalize.
    destruct (ends_with s "/") eqn:Hs; [|reflexivity].
    apply ends_with_slash in Hs. contradiction.
  - intros s H. apply normalize_fixed, ends_with_slash, H.
  - apply normalize_idempotent.
  - apply read_settings_path_output.
  - apply read_settings_path_multipole.
Qed.

(** ** The defaults *)

(** C5: before any document is applied, [temperature_method] is
    [TEMPERATURE_NEAREST], [temperature_tolerance] is 10.0,
    [temperature_default] is 293.6 and [energy_cutoff] is
    {0.0, 1000.0, 0.0, 0.0}. *)
Theorem default_registry :
  settings.temperature_method settings.default = TEMPERATURE_NEAREST
  /\ settings.temperature_tolerance settings.default = 10.0%float
  /\ settings.temperature_default settings.default = 293.6%float
  /\ settings.energy_cutoff settings.default = (0.0, 1000.0, 0.0, 0.0)%float.
Proof.
 repeat split. Qed.

(** ** The deprecated paths *)

(** C6: a [cross_sections] node raises no fatal condition.  Lines 87-94
    return; the load, however it ends, has emitted exactly one warning for
    that field and has assigned the value of the node to
    [path_cross_sections] as it is given, not normalized; and the load
    returns on every [loadable] document, a condition on the later fields
    in which the node has no part. *)
Theorem deprecated_cross_sections root w :
  check_for_node root "cross_sections" = true ->
  (exists w1, read_cross_sections root w = Returned tt w1)
  /\ settings.path_cross_sections (globals (final (read_settings root w))) =
     get_node_value root "cross_sections" false false
  /\ (exists log,
       warnings (final (read_settings root w)) = (warnings w ++ log)%list
       /\ count_occ string_dec log cross_sections_deprecated = 1%nat)
  /\ (loadable root = true ->
      exists w', read_settings root w = Returned tt w').
Proof.
  intros Hnode. repeat split.
  - eexists. apply read_cross_sections_total.
  - now apply read_settings_path_cross_sections.
  - rewrite read_settings_warnings, Hnode. eexists. split; [reflexivity|].
    rewrite count_occ_app. rewrite count_occ_cons_eq by reflexivity.
    destruct (negb (settings.run_mode (globals w) =? RUN_MODE_PLOTTING)%Z
              && check_for_node root "multipole_library"); [|reflexivity].
    now rewrite count_occ_cons_neq by apply deprecation_messages_differ.
  - apply read_settings_loadable.
Qed.

(** C7: in plotting mode the load leaves [path_multipole] as it was,
    whether or not the document has a [multipole_library] node. *)
Theorem plotting_skips_multipole root w :
  settings.run_mode (globals w) = RUN_MODE_PLOTTING ->
  settings.path_multipole (globals (final (read_settings root w))) =
  settings.path_multipole (globals w).
Proof.
  intros Hmode. unfold read_settings.
  rewrite (final_bind_total _ _ _ (read_cross_sections_total root)).
  rewrite (final_bind_total _ _ _ (read_multipole_library_total root)).
  rewrite (from_output_keeps_path_multipole root).
  rewrite read_multipole_library_plotting.
  - apply (read_cross_sections_keeps_path_multipole root w).
  - now rewrite (read_cross_sections_keeps_run_mode root w).
Qed.

(** C9: outside plotting mode and without a [multipole_library] node, the
    load leaves [path_multipole] normalized; from the empty default it
    ends as "/". *)
Theorem multipole_separator_without_node root w :
  settings.run_mode (globals w) <> RUN_MODE_PLOTTING ->
  check_for_node root "multipole_library" = false ->
  settings.path_multipole (globals (final (read_settings root w))) =
    normalize (settings.path_multipole (globals w))
  /\ (settings.path_multipole (globals w) = "" ->
      settings.path_multipole (globals (final (read_settings root w))) = "/").
Proof.
  intros Hmode Hnode.
  rewrite (read_settings_path_multipole _ _ Hmode), Hnode.
  split; [reflexivity|]. now intros ->.
Qed.

(** ** The temperature range *)

(** C8: with a [temperature_range] node whose array has at least two
    entries, the load assigns entry 0 to [temperature_range[0]] and entry 1
    to [temperature_range[1]], whatever the two values are: no hypothesis
    orders them.  This is the state of every load that returns, and of
    every load that got as far as line 146 (no exception of [std::stod],
    an accepted method); the range itself never stops the load. *)
Theorem temperature_range_unchecked root w r0 r1 rest :
  check_for_node root "temperature_range" = true ->
  get_node_array_double root "temperature_range" = r0 :: r1 :: rest ->
  (forall w', read_settings root w = Returned tt w' ->
     settings.temperature_range (globals w') = (r0, r1))
  /\ (default_converts root = true -> method_accepted root = true ->
      tolerance_converts root = true ->
      settings.temperature_range (globals (final (read_settings root w))) =
      (r0, r1))
  /\ (default_converts root = true -> method_accepted root = true ->
      tolerance_converts root = true -> sources_accepted root = true ->
      exists w', read_settings root w = Returned tt w').
Proof.
  intros Hnode Harray. repeat split.
  - intros w' H.
    destruct (loadable_parts root (read_settings_Returned _ _ _ H))
      as (Hd & Hm & Ht & _).
    pose proof (read_settings_temperature_range root w r0 r1 rest
                  Hnode Harray Hd Hm Ht) as Hrange.
    now rewrite H in Hrange.
  - now apply (read_settings_temperature_range root w r0 r1 rest).
  - intros Hd Hm Ht Hs. apply read_settings_loadable.
    unfold loadable, range_indexable.
    now rewrite Hd, Hm, Ht, Hs, Hnode, Harray.
Qed.

(** ** A load that fails *)

Lemma before_default_path_cross_sections root w :
  check_for_node root "cross_sections" = true ->
  settings.path_cross_sections (globals (before_default root w)) =
  get_node_value root "cross_sections" false false.
Proof.
  intros Hnode. unfold before_default.
  rewrite (ltac:(unfold_steps; keeps_tac)
            : keeps path_cross_sections_of (read_output root)).
  rewrite (ltac:(unfold_steps; keeps_tac)
            : keeps path_cross_sections_of (read_multipole_library root)).
  now rewrite read_cross_sections_final, Hnode.
Qed.

Lemma before_default_path_multipole root w :
  settings.run_mode (globals w) <> RUN_MODE_PLOTTING ->
  settings.path_multipole (globals (before_default root w)) =
  normalize (if check_for_node root "multipole_library"
             then get_node_value root "multipole_library" false false
             else settings.path_multipole (globals w)).
Proof.
  intros Hmode. unfold before_default.
  rewrite (ltac:(unfold_steps; keeps_tac)
            : keeps path_multipole_of (read_output root)).
  rewrite read_multipole_library_path.
  - now rewrite (read_cross_sections_keeps_path_multipole root w).
  - now rewrite (read_cross_sections_keeps_run_mode root w).
Qed.

Lemma before_default_path_output root w :
  check_for_node root "output" = true ->
  check_for_node (child root "output") "path" = true ->
  settings.path_output (globals (before_default root w)) =
  normalize (get_node_value (child root "output") "path" false false).
Proof. intros H1 H2. now apply read_output_path. Qed.

Lemma before_method_paths root w :
  settings.path_cross_sections (globals (before_method root w)) =
    settings.path_cross_sections (globals (before_default root w))
  /\ settings.path_multipole (globals (before_method root w)) =
     settings.path_multipole (globals (before_default root w))
  /\ settings.path_output (globals (before_method root w)) =
     settings.path_output (globals (before_default root w)).
Proof.
  unfold before_method. repeat split.
  - apply (ltac:(unfold_steps; keeps_tac)
            : keeps path_cross_sections_of (read_temperature_default root)).
  - apply (ltac:(unfold_steps; keeps_tac)
            : keeps path_multipole_of (read_temperature_default root)).
  - apply (ltac:(unfold_steps; keeps_tac)
            : keeps path_output_of (read_temperature_default root)).
Qed.

(** C10: when the load stops in the fatal error of the unknown temperature
    method, the fields read before line 130 hold what the document gave
    them: [path_cross_sections] the value of its node, [path_multipole]
    (outside plotting mode) and [path_output] the normalized values of
    theirs, [temperature_default] the number that [std::stod] made of its
    node; where one of these differs from what the field held before the
    load, the globals are not what they were.  The fatal error is reached
    when [std::stod] has not thrown at line 128. *)
Theorem fatal_load_not_atomic root w :
  check_for_node root "temperature_method" = true ->
  get_node_value root "temperature_method" true true <> "nearest" ->
  get_node_value root "temperature_method" true true <> "interpolation" ->
  default_converts root = true ->
  exists w',
    read_settings root w =
      Fatal ("Unknown temperature method: "
             ++ get_node_value root "temperature_method" true true) w'
    /\ (check_for_node root "cross_sections" = true ->
        settings.path_cross_sections (globals w') =
          get_node_value root "cross_sections" false false
        /\ (get_node_value root "cross_sections" false false <>
              settings.path_cross_sections (globals w) ->
            globals w' <> globals w))
    /\ (settings.run_mode (globals w) <> RUN_MODE_PLOTTING ->
        check_for_node root "multipole_library" = true ->
        settings.path_multipole (globals w') =
          normalize (get_node_value root "multipole_library" false false)
        /\ (normalize (get_node_value root "multipole_library" false false) <>
              settings.path_multipole (globals w) ->
            globals w' <> globals w))
    /\ (check_for_node root "output" = true ->
        check_for_node (child root "output") "path" = true ->
        settings.path_output (globals w') =
          normalize (get_node_value (child root "output") "path" false false)
        /\ (normalize (get_node_value (child root "output") "path"
                                      false false) <>
              settings.path_output (globals w) ->
            globals w' <> globals w))
    /\ (check_for_node root "temperature_default" = true ->
        stod (get_node_value root "temperature_default" false false) =
          inr (settings.temperature_default (globals w'))
        /\ (stod (get_node_value root "temperature_default" false false) <>
              inr (settings.temperature_default (globals w)) ->
            globals w' <> globals w)).
Proof.
  intros Hnode H1 H2 Hdefault. exists (before_method root w). split.
  { rewrite (read_settings_from_method _ _ Hdefault).
    now apply bind_eq_Fatal, read_temperature_method_unknown. }
  destruct (before_method_paths root w) as (Pcs & Pmp & Pout).
  split; [|split; [|split]].
  - intros Hcs.
    pose proof (before_default_path_cross_sections root w Hcs) as Hv.
    rewrite <- Pcs in Hv.
    split; [exact Hv|]. intros Hdiff Heq. apply Hdiff.
    now rewrite <- Hv, Heq.
  - intros Hmode Hmp.
    pose proof (before_default_path_multipole root w Hmode) as Hv.
    rewrite Hmp, <- Pmp in Hv.
    split; [exact Hv|]. intros Hdiff Heq. apply Hdiff.
    now rewrite <- Hv, Heq.
  - intros Hout Hpath.
    pose proof (before_default_path_output root w Hout Hpath) as Hv.
    rewrite <- Pout in Hv.
    split; [exact Hv|]. intros Hdiff Heq. apply Hdiff.
    now rewrite <- Hv, Heq.
  - intros Htd.
    assert (Hconv : converts (get_node_value root "temperature_default"
                                             false false) = true).
    { unfold default_converts in Hdefault. now rewrite Htd in Hdefault. }
    destruct (converts_value _ Hconv) as [x Hx].
    pose proof (read_temperature_default_value root (before_default root w)
                  x Htd Hx) as Hv.
    fold (before_method root w) in Hv.
    split.
    + now rewrite Hv.
    + intros Hdiff Heq. apply Hdiff. now rewrite <- Heq, Hv.
Qed.

(** * Further properties of [read_settings] *)

(** ** What a load never writes, and what it leaves when a node is absent *)

Lemma keeps_when_false {B} (f : world -> B) (m : M unit) :
  keeps f (when false m).
Proof. apply keeps_ret. Qed.

(** As [keeps_tac], after the tests of the absent nodes have been rewritten
    to [false]. *)
Ltac keeps_absent :=
  cbv zeta; repeat first [ apply keeps_when_false | keeps_step ].

(** X1: [read_settings] never writes [energy_cutoff] nor [run_mode]:
    however the load ends, both are what they were. *)
Theorem load_keeps_energy_cutoff_and_run_mode root w :
  settings.energy_cutoff (globals (final (read_settings root w))) =
    settings.energy_cutoff (globals w)
  /\ settings.run_mode (globals (final (read_settings root w))) =
     settings.run_mode (globals w).
Proof.
  split.
  - apply (read_settings_keeps_energy_cutoff root w).
  - apply (read_settings_keeps_run_mode root w).
Qed.

Lemma absent_cross_sections root :
  check_for_node root "cross_sections" = false ->
  keeps path_cross_sections_of (read_settings root).
Proof.
  intros H. unfold read_settings. unfold_steps. rewrite H. keeps_absent.
Qed.

Lemma absent_output root :
  check_for_node root "output" = false ->
  keeps path_output_of (read_settings root).
Proof.
  intros H. unfold read_settings. unfold_steps. rewrite H. keeps_absent.
Qed.

Lemma absent_output_path root :
  check_for_node (child root "output") "path" = false ->
  keeps path_output_of (read_settings root).
Proof.
  intros H. unfold read_settings. unfold_steps. cbv zeta. rewrite H.
  keeps_absent.
Qed.

Lemma absent_temperature_default root :
  check_for_node root "temperature_default" = false ->
  keeps temperature_default_of (read_settings root).
Proof.
  intros H. unfold read_settings. unfold_steps. rewrite H. keeps_absent.
Qed.

Lemma absent_temperature_method root :
  check_for_node root "temperature_method" = false ->
  keeps temperature_method_of (read_settings root).
Proof.
  intros H. unfold read_settings. unfold_steps. rewrite H. keeps_absent.
Qed.

Lemma absent_temperature_tolerance root :
  check_for_node root "temperature_tolerance" = false ->
  keeps temperature_tolerance_of (read_settings root).
Proof.
  intros H. unfold read_settings. unfold_steps. rewrite H. keeps_absent.
Qed.

Lemma absent_temperature_multipole root :
  check_for_node root "temperature_multipole" = false ->
  keeps temperature_multipole_of (read_settings root).
Proof.
  intros H. unfold read_settings. unfold_steps. rewrite H. keeps_absent.
Qed.

Lemma absent_temperature_range root :
  check_for_node root "temperature_range" = false ->
  keeps temperature_range_of (read_settings root).
Proof.
  intros H. unfold read_settings. unfold_steps. rewrite H. keeps_absent.
Qed.

(** X2: a node that the document does not have leaves its global as it
    was, however the load ends: [cross_sections], [output] (or its [path]),
    [temperature_default], [temperature_method], [temperature_tolerance],
    [temperature_multipole] and [temperature_range]. *)
Theorem absent_nodes_keep_fields root w :
  (check_for_node root "cross_sections" = false ->
     settings.path_cross_sections (globals (final (read_settings root w))) =
     settings.path_cross_sections (globals w))
  /\ (check_for_node root "output" = false
      \/ check_for_node (child root "output") "path" = false ->
      settings.path_output (globals (final (read_settings root w))) =
      settings.path_output (globals w))
  /\ (check_for_node root "temperature_default" = false ->
      settings.temperature_default (globals (final (read_settings root w))) =
      settings.temperature_default (globals w))
  /\ (check_for_node root "temperature_method" = false ->
      settings.temperature_method (globals (final (read_settings root w))) =
      settings.temperature_method (globals w))
  /\ (check_for_node root "temperature_tolerance" = false ->
      settings.temperature_tolerance (globals (final (read_settings root w))) =
      settings.temperature_tolerance (globals w))
  /\ (check_for_node root "temperature_multipole" = false ->
      settings.temperature_multipole (globals (final (read_settings root w))) =
      settings.temperature_multipole (globals w))
  /\ (check_for_node root "temperature_range" = false ->
      settings.temperature_range (globals (final (read_settings root w))) =
      settings.temperature_range (globals w)).
Proof.
  repeat split.
  - intros H. apply (absent_cross_sections root H w).
  - intros [H|H].
    + apply (absent_output root H w).
    + apply (absent_output_path root H w).
  - intros H. apply (absent_temperature_default root H w).
  - intros H. apply (absent_temperature_method root H w).
  - intros H. apply (absent_temperature_tolerance root H w).
  - intros H. apply (absent_temperature_multipole root H w).
  - intros H. apply (absent_temperature_range root H w).
Qed.

(** ** The temperature scalars *)

(** X3: a [temperature_default] node whose text [std::stod] converts
    gives [temperature_default] that number, however the load ends.  When
    moreover the temperature method is accepted, a [temperature_tolerance]
    node whose text converts gives [temperature_tolerance] its number, and
    a [temperature_multipole] node gives the flag its boolean, also when
    the load stops later on. *)
Theorem temperature_scalars_assigned root w :
  (forall x,
     check_for_node root "temperature_default" = true ->
     stod (get_node_value root "temperature_default" false false) = inr x ->
     settings.temperature_default (globals (final (read_settings root w))) =
     x)
  /\ (forall x,
        default_converts root = true ->
        method_accepted root = true ->
        check_for_node root "temperature_tolerance" = true ->
        stod (get_node_value root "temperature_tolerance" false false) =
          inr x ->
        settings.temperature_tolerance
          (globals (final (read_settings root w))) = x)
  /\ (default_converts root = true ->
      method_accepted root = true ->
      tolerance_converts root = true ->
      check_for_node root "temperature_multipole" = true ->
      settings.temperature_multipole (globals (final (read_settings root w))) =
      get_node_value_bool root "temperature_multipole").
Proof.
  repeat split.
  - intros x. apply read_settings_temperature_default.
  - intros x. apply read_settings_temperature_tolerance.
  - apply read_settings_temperature_multipole.
Qed.

(** ** Where a load stops *)

(** X4: when [std::stod] has not thrown at line 128 and the temperature
    method is unknown, nothing of lines 140-168 has run when the load
    stops: [temperature_method], [temperature_tolerance],
    [temperature_multipole], [temperature_range] and [external_sources]
    are what they were before the load, whatever nodes the document has
    for them. *)
Theorem fatal_load_leaves_later_fields root w :
  default_converts root = true ->
  method_accepted root = false ->
  exists w',
    read_settings root w =
      Fatal ("Unknown temperature method: "
             ++ get_node_value root "temperature_method" true true) w'
    /\ settings.temperature_method (globals w') =
       settings.temperature_method (globals w)
    /\ settings.temperature_tolerance (globals w') =
       settings.temperature_tolerance (globals w)
    /\ settings.temperature_multipole (globals w') =
       settings.temperature_multipole (globals w)
    /\ settings.temperature_range (globals w') =
       settings.temperature_range (globals w)
    /\ external_sources w' = external_sources w.
Proof.
  intros Hdefault H. destruct (method_rejected root H) as (Hnode & H1 & H2).
  exists (before_method root w). split.
  { rewrite (read_settings_from_method _ _ Hdefault).
    now apply bind_eq_Fatal, read_temperature_method_unknown. }
  repeat split.
  - apply before_method_keeps_temperature_method.
  - apply (before_method_keeps temperature_tolerance_of);
      unfold_steps; keeps_tac.
  - apply (before_method_keeps temperature_multipole_of);
      unfold_steps; keeps_tac.
  - apply (before_method_keeps temperature_range_of);
      unfold_steps; keeps_tac.
  - apply before_method_keeps_external_sources.
Qed.

(** X12: an exception of [std::stod] leaves [read_settings] where it is
    thrown.  At line 128 (a [temperature_default] text that does not
    convert) the paths of lines 87-124 are written, and none of the
    temperature fields nor [external_sources] is touched: not even an
    unknown temperature method is reported.  At line 141 (a
    [temperature_tolerance] text that does not convert, after a converted
    default and an accepted method) the tolerance, the flag, the range and
    [external_sources] are untouched. *)
Theorem stod_exception_stops_the_load root w e :
  (check_for_node root "temperature_default" = true ->
   stod (get_node_value root "temperature_default" false false) = inl e ->
   read_settings root w = Thrown e (before_default root w)
   /\ settings.temperature_default (globals (before_default root w)) =
      settings.temperature_default (globals w)
   /\ settings.temperature_method (globals (before_default root w)) =
      settings.temperature_method (globals w)
   /\ settings.temperature_tolerance (globals (before_default root w)) =
      settings.temperature_tolerance (globals w)
   /\ settings.temperature_multipole (globals (before_default root w)) =
      settings.temperature_multipole (globals w)
   /\ settings.temperature_range (globals (before_default root w)) =
      settings.temperature_range (globals w)
   /\ external_sources (before_default root w) = external_sources w)
  /\ (default_converts root = true ->
      method_accepted root = true ->
      check_for_node root "temperature_tolerance" = true ->
      stod (get_node_value root "temperature_tolerance" false false) = inl e ->
      exists w',
        read_settings root w = Thrown e w'
        /\ settings.temperature_tolerance (globals w') =
           settings.temperature_tolerance (globals w)
        /\ settings.temperature_multipole (globals w') =
           settings.temperature_multipole (globals w)
        /\ settings.temperature_range (globals w') =
           settings.temperature_range (globals w)
        /\ external_sources w' = external_sources w).
Proof.
  split.
  - intros Hnode He. split.
    { rewrite read_settings_from_default.
      now apply bind_eq_Thrown, read_temperature_default_throws. }
    repeat split.
    + apply (before_default_keeps temperature_default_of);
        unfold_steps; keeps_tac.
    + apply (before_default_keeps temperature_method_of);
        unfold_steps; keeps_tac.
    + apply (before_default_keeps temperature_tolerance_of);
        unfold_steps; keeps_tac.
    + apply (before_default_keeps temperature_multipole_of);
        unfold_steps; keeps_tac.
    + apply (before_default_keeps temperature_range_of);
        unfold_steps; keeps_tac.
    + apply (before_default_keeps external_sources);
        unfold_steps; keeps_tac.
  - intros Hdefault Hmethod Hnode He.
    exists (after_method root w). split.
    { rewrite (read_settings_from_method _ _ Hdefault).
      rewrite (bind_returns _ _ _
                 (read_temperature_method_accepted root _ Hmethod)).
      now apply bind_eq_Thrown, read_temperature_tolerance_throws. }
    repeat split.
    + rewrite (ltac:(unfold_steps; keeps_tac)
                : keeps temperature_tolerance_of
                        (read_temperature_method root)).
      apply (before_method_keeps temperature_tolerance_of);
        unfold_steps; keeps_tac.
    + rewrite (ltac:(unfold_steps; keeps_tac)
                : keeps temperature_multipole_of
                        (read_temperature_method root)).
      apply (before_method_keeps temperature_multipole_of);
        unfold_steps; keeps_tac.
    + rewrite (ltac:(unfold_steps; keeps_tac)
                : keeps temperature_range_of (read_temperature_method root)).
      apply (before_method_keeps temperature_range_of);
        unfold_steps; keeps_tac.
    + rewrite (ltac:(unfold_steps; keeps_tac)
                : keeps external_sources (read_temperature_method root)).
      apply before_method_keeps_external_sources.
Qed.

(** ** The source constructor *)

(** X6: when the constructor rejects a [source] node, on a load that has
    got as far as line 156 (no exception of [std::stod], an accepted
    method, a range of two entries), the load stops in the constructor's
    fatal error; the sources of the nodes before it have been appended to
    [external_sources], those after it have not, and the default source is
    not added. *)
Theorem rejected_source_stops_the_load root w pre n post msg :
  default_converts root = true ->
  method_accepted root = true ->
  tolerance_converts root = true ->
  range_indexable root = true ->
  children root "source" = (pre ++ n :: post)%list ->
  forallb accepted pre = true ->
  source_error n = Some msg ->
  exists w',
    read_settings root w = Fatal msg w'
    /\ external_sources w' =
       (external_sources w ++ map SourceDistribution_xml pre)%list.
Proof.
  intros Hdefault Hmethod Htolerance Hrange Hnodes Hpre Hn.
  destruct (read_settings_at_sources root w Hdefault Hmethod Htolerance Hrange)
    as (w8 & Hload & Hsources).
  rewrite Hload. unfold read_external_sources. rewrite Hnodes.
  rewrite (bind_eq_Fatal _ _ _ _ _
             (emplace_all_rejected pre post n msg w8 Hpre Hn)).
  eexists. split; [reflexivity|]. simpl. now rewrite Hsources.
Qed.

(** X7: after a load that returns, [external_sources] is never empty,
    whatever it held before; sources that were there before the load stay
    in front, the sources of the document follow them, and the default
    source is built only when the vector was empty and the document has no
    [source] node. *)
Theorem sources_after_a_load root w w' :
  read_settings root w = Returned tt w' ->
  external_sources w' <> []
  /\ (external_sources w <> [] ->
      external_sources w' =
      (external_sources w
       ++ map SourceDistribution_xml (children root "source"))%list)
  /\ (external_sources w' =
        (external_sources w
         ++ map SourceDistribution_xml (children root "source"))%list
      \/ (external_sources w = [] /\ children root "source" = []
          /\ external_sources w' = [default_source])).
Proof.
  intros H. apply read_settings_sources in H.
  destruct (external_sources w) as [|x l] eqn:Hold.
  - simpl in H. destruct (children root "source") as [|n nodes] eqn:Hnodes.
    + simpl in H. rewrite H. repeat split.
      * discriminate.
      * contradiction.
      * right. now repeat split.
    + simpl in H. rewrite H. repeat split.
      * discriminate.
      * now left.
  - simpl in H. rewrite H. repeat split.
    + discriminate.
    + now left.
Qed.

Lemma from_tolerance_outcome root w5 :
  match from_tolerance root w5 with
  | Returned _ _ => True
  | Fatal msg _ =>
      exists n, In n (children root "source") /\ source_error n = Some msg
  | Thrown e _ =>
      check_for_node root "temperature_tolerance" = true
      /\ stod (get_node_value root "temperature_tolerance" false false) = inl e
  | Undefined _ => range_indexable root = false
  end.
Proof.
  unfold bind at 1. rewrite read_temperature_tolerance_spec.
  destruct (check_for_node root "temperature_tolerance"); simpl.
  - destruct (stod _) as [e|x]; [now split|].
    rewrite (bind_total _ _ _ (read_temperature_multipole_total root)).
    unfold bind.
    match goal with
    | |- context [read_temperature_range root ?w7] =>
        pose proof (read_temperature_range_not_Fatal_nor_Thrown root w7) as H8;
        destruct (read_temperature_range root w7) as [[] w8|msg w8|e w8|w8];
        try contradiction; try exact H8
    end.
    pose proof (read_external_sources_outcome root w8) as H9.
    destruct (read_external_sources root w8); try contradiction;
      (exact I || exact H9).
  - rewrite (bind_total _ _ _ (read_temperature_multipole_total root)).
    unfold bind.
    match goal with
    | |- context [read_temperature_range root ?w7] =>
        pose proof (read_temperature_range_not_Fatal_nor_Thrown root w7) as H8;
        destruct (read_temperature_range root w7) as [[] w8|msg w8|e w8|w8];
        try contradiction; try exact H8
    end.
    pose proof (read_external_sources_outcome root w8) as H9.
    destruct (read_external_sources root w8); try contradiction;
      (exact I || exact H9).
Qed.

(** X8: what keeps a load from returning.  A fatal error is the unknown
    temperature method, with its message, or comes from the constructor of
    one of the [source] nodes, with the constructor's message.  An
    exception is the one that [std::stod] throws on the text of
    [temperature_default] or of [temperature_tolerance].  On a [loadable]
    document neither happens and the load returns. *)
Theorem outcomes_of_a_load root w :
  (forall msg w', read_settings root w = Fatal msg w' ->
     (method_accepted root = false
      /\ msg = "Unknown temperature method: "
               ++ get_node_value root "temperature_method" true true)
     \/ exists n,
          In n (children root "source") /\ source_error n = Some msg)
  /\ (forall e w', read_settings root w = Thrown e w' ->
        (check_for_node root "temperature_default" = true
         /\ stod (get_node_value root "temperature_default" false false) =
            inl e)
        \/ (check_for_node root "temperature_tolerance" = true
            /\ stod (get_node_value root "temperature_tolerance" false false) =
               inl e))
  /\ (loadable root = true ->
      exists w', read_settings root w = Returned tt w').
Proof.
  assert (Hcases :
    match read_settings root w with
    | Returned _ _ => True
    | Fatal msg _ =>
        (method_accepted root = false
         /\ msg = "Unknown temperature method: "
                  ++ get_node_value root "temperature_method" true true)
        \/ exists n,
             In n (children root "source") /\ source_error n = Some msg
    | Thrown e _ =>
        (check_for_node root "temperature_default" = true
         /\ stod (get_node_value root "temperature_default" false false) =
            inl e)
        \/ (check_for_node root "temperature_tolerance" = true
            /\ stod (get_node_value root "temperature_tolerance" false false) =
               inl e)
    | Undefined _ => range_indexable root = false
    end).
  { rewrite read_settings_from_default. unfold bind at 1.
    rewrite read_temperature_default_spec.
    assert (Hrest : forall w4,
      match from_method root w4 with
      | Returned _ _ => True
      | Fatal msg _ =>
          (method_accepted root = false
           /\ msg = "Unknown temperature method: "
                    ++ get_node_value root "temperature_method" true true)
          \/ exists n,
               In n (children root "source") /\ source_error n = Some msg
      | Thrown e _ =>
          (check_for_node root "temperature_default" = true
           /\ stod (get_node_value root "temperature_default" false false) =
              inl e)
          \/ (check_for_node root "temperature_tolerance" = true
              /\ stod (get_node_value root "temperature_tolerance"
                                      false false) = inl e)
      | Undefined _ => range_indexable root = false
      end).
    { intros w4. destruct (method_accepted root) eqn:Hmethod.
      - rewrite (bind_returns _ _ _
                   (read_temperature_method_accepted root _ Hmethod)).
        match goal with
        | |- context [from_tolerance root ?w5] =>
            pose proof (from_tolerance_outcome root w5) as H;
            destruct (from_tolerance root w5)
        end; auto.
      - destruct (method_rejected root Hmethod) as (Hnode & H1 & H2).
        rewrite (bind_eq_Fatal _ _ _ _ _
                   (read_temperature_method_unknown root _ Hnode H1 H2)).
        left. now split. }
    destruct (check_for_node root "temperature_default"); simpl.
    - destruct (stod _) as [e|x] eqn:Hx.
      + left. now split.
      + apply Hrest.
    - apply Hrest. }
  repeat split.
  - intros msg w' H. now rewrite H in Hcases.
  - intros e w' H. now rewrite H in Hcases.
  - apply read_settings_loadable.
Qed.

(** ** The warnings and the directory paths *)

Lemma two_messages (a b : string) (ca cb : bool) :
  a <> b ->
  (List.length ((if ca then [a] else []) ++ (if cb then [b] else [])) <= 2)%nat
  /\ (In a ((if ca then [a] else []) ++ (if cb then [b] else []))%list <->
      ca = true)
  /\ (In b ((if ca then [a] else []) ++ (if cb then [b] else []))%list <->
      cb = true)
  /\ (forall msg,
        In msg ((if ca then [a] else []) ++ (if cb then [b] else []))%list ->
        msg = a \/ msg = b).
Proof.
  intros Hab. destruct ca, cb; simpl; repeat split;
    try lia; try tauto; try discriminate;
    intuition (congruence || auto).
Qed.

(** X9: the warnings of a load, however it ends: the old ones, then at
    most two new ones.  The [cross_sections] warning is among the new ones
    exactly when the document has that node, the [multipole_library]
    warning exactly when the run mode is not plotting and the document has
    that node; no other message is added. *)
Theorem warnings_of_a_load root w :
  exists log,
    warnings (final (read_settings root w)) = (warnings w ++ log)%list
    /\ (List.length log <= 2)%nat
    /\ (In cross_sections_deprecated log <->
        check_for_node root "cross_sections" = true)
    /\ (In multipole_library_deprecated log <->
        settings.run_mode (globals w) <> RUN_MODE_PLOTTING
        /\ check_for_node root "multipole_library" = true)
    /\ (forall msg, In msg log ->
        msg = cross_sections_deprecated
        \/ msg = multipole_library_deprecated).
Proof.
  rewrite read_settings_warnings. eexists. split; [reflexivity|].
  destruct (two_messages cross_sections_deprecated multipole_library_deprecated
              (check_for_node root "cross_sections")
              (negb (settings.run_mode (globals w) =? RUN_MODE_PLOTTING)%Z
               && check_for_node root "multipole_library"))
    as (Hlen & Hcs & Hmp & Honly).
  { intros H. now apply deprecation_messages_differ. }
  split; [exact Hlen|]. split; [exact Hcs|]. split; [|exact Honly].
  rewrite Hmp, andb_true_iff, negb_true_iff, Z.eqb_neq. reflexivity.
Qed.

(** X10: the directory paths end in the separator.  Outside plotting mode
    [path_multipole] ends in "/" after the load, with or without a
    [multipole_library] node; with an [output/path] node, [path_output]
    ends in "/"; and this however the load ends. *)
Theorem directory_paths_end_in_separator root w :
  (settings.run_mode (globals w) <> RUN_MODE_PLOTTING ->
     has_suffix "/"
       (settings.path_multipole (globals (final (read_settings root w)))))
  /\ (check_for_node root "output" = true ->
      check_for_node (child root "output") "path" = true ->
      has_suffix "/"
        (settings.path_output (globals (final (read_settings root w))))).
Proof.
  split.
  - intros Hmode. rewrite (read_settings_path_multipole _ _ Hmode).
    apply ends_with_slash, normalize_ends.
  - intros H1 H2. rewrite (read_settings_path_output _ _ H1 H2).
    apply ends_with_slash, normalize_ends.
Qed.

(** ** Loading a document twice *)

Lemma settings_ext (a b : settings.t) :
  settings.temperature_multipole a = settings.temperature_multipole b ->
  settings.path_cross_sections a = settings.path_cross_sections b ->
  settings.path_multipole a = settings.path_multipole b ->
  settings.path_output a = settings.path_output b ->
  settings.energy_cutoff a = settings.energy_cutoff b ->
  settings.run_mode a = settings.run_mode b ->
  settings.temperature_method a = settings.temperature_method b ->
  settings.temperature_tolerance a = settings.temperature_tolerance b ->
  settings.temperature_default a = settings.temperature_default b ->
  settings.temperature_range a = settings.temperature_range b ->
  a = b.
Proof. destruct a, b; simpl; intros; now subst. Qed.

Lemma node_converts (test : bool) (s : string) :
  negb test || converts s = true -> test = true ->
  exists x, stod s = inr x.
Proof. intros H ->. now apply converts_value. Qed.

(** The globals after a second load of the document are those after the
    first. *)
Lemma reload_globals root w w1 w2 :
  read_settings root w = Returned tt w1 ->
  read_settings root w1 = Returned tt w2 ->
  globals w2 = globals w1.
Proof.
  intros H1 H2.
  destruct (loadable_parts root (read_settings_Returned _ _ _ H1))
    as (Hdefault & Hmethod & Htolerance & Hrange & _).
  assert (F1 : final (read_settings root w) = w1) by now rewrite H1.
  assert (F2 : final (read_settings root w1) = w2) by now rewrite H2.
  assert (Hmode : settings.run_mode (globals w1) =
                  settings.run_mode (globals w)).
  { rewrite <- F1. apply (read_settings_keeps_run_mode root w). }
  apply settings_ext.
  - destruct (check_for_node root "temperature_multipole") eqn:Hnode.
    + rewrite <- F2,
        (read_settings_temperature_multipole _ _
           Hdefault Hmethod Htolerance Hnode).
      now rewrite <- F1,
        (read_settings_temperature_multipole _ _
           Hdefault Hmethod Htolerance Hnode).
    + rewrite <- F2. apply (absent_temperature_multipole root Hnode w1).
  - destruct (check_for_node root "cross_sections") eqn:Hnode.
    + rewrite <- F2, (read_settings_path_cross_sections _ _ Hnode).
      now rewrite <- F1, (read_settings_path_cross_sections _ _ Hnode).
    + rewrite <- F2. apply (absent_cross_sections root Hnode w1).
  - destruct (Z.eq_dec (settings.run_mode (globals w)) RUN_MODE_PLOTTING)
      as [Hplot|Hplot].
    + rewrite <- F2. apply read_settings_path_multipole_in_plotting.
      now rewrite Hmode.
    + assert (Hplot1 : settings.run_mode (globals w1) <> RUN_MODE_PLOTTING)
        by now rewrite Hmode.
      rewrite <- F2, (read_settings_path_multipole _ _ Hplot1).
      pose proof (read_settings_path_multipole root w Hplot) as Hfirst.
      rewrite F1 in Hfirst.
      destruct (check_for_node root "multipole_library").
      * now rewrite Hfirst.
      * rewrite Hfirst. apply normalize_idempotent.
  - destruct (check_for_node root "output") eqn:Hout;
      [destruct (check_for_node (child root "output") "path") eqn:Hpath|].
    + rewrite <- F2, (read_settings_path_output _ _ Hout Hpath).
      now rewrite <- F1, (read_settings_path_output _ _ Hout Hpath).
    + rewrite <- F2. apply (absent_output_path root Hpath w1).
    + rewrite <- F2. apply (absent_output root Hout w1).
  - rewrite <- F2. apply (read_settings_keeps_energy_cutoff root w1).
  - rewrite <- F2. apply (read_settings_keeps_run_mode root w1).
  - destruct (check_for_node root "temperature_method") eqn:Hnode.
    + rewrite <- F2,
        (read_settings_temperature_method _ _ Hdefault Hmethod Hnode).
      now rewrite <- F1,
        (read_settings_temperature_method _ _ Hdefault Hmethod Hnode).
    + rewrite <- F2. apply (absent_temperature_method root Hnode w1).
  - destruct (check_for_node root "temperature_tolerance") eqn:Hnode.
    + destruct (node_converts _ _ Htolerance Hnode) as [x Hx].
      rewrite <- F2,
        (read_settings_temperature_tolerance _ _ x
           Hdefault Hmethod Hnode Hx).
      now rewrite <- F1,
        (read_settings_temperature_tolerance _ _ x
           Hdefault Hmethod Hnode Hx).
    + rewrite <- F2. apply (absent_temperature_tolerance root Hnode w1).
  - destruct (check_for_node root "temperature_default") eqn:Hnode.
    + destruct (node_converts _ _ Hdefault Hnode) as [x Hx].
      rewrite <- F2, (read_settings_temperature_default _ _ x Hnode Hx).
      now rewrite <- F1, (read_settings_temperature_default _ _ x Hnode Hx).
    + rewrite <- F2. apply (absent_temperature_default root Hnode w1).
  - destruct (check_for_node root "temperature_range") eqn:Hnode.
    + destruct (range_has_two_entries root Hrange Hnode)
        as (r0 & r1 & rest & Harray).
      rewrite <- F2,
        (read_settings_temperature_range _ _ _ _ _
           Hnode Harray Hdefault Hmethod Htolerance).
      now rewrite <- F1,
        (read_settings_temperature_range _ _ _ _ _
           Hnode Harray Hdefault Hmethod Htolerance).
    + rewrite <- F2. apply (absent_temperature_range root Hnode w1).
Qed.

(** X11: a document that has been loaded can be loaded again, and the
    second load leaves the globals as the first one left them; but it
    emits the same warnings once more and appends the sources of the
    document once more, so that the [source] nodes end up twice in
    [external_sources] (and a default source is not added a second
    time). *)
Theorem loading_twice root w w1 :
  read_settings root w = Returned tt w1 ->
  exists w2,
    read_settings root w1 = Returned tt w2
    /\ globals w2 = globals w1
    /\ external_sources w2 =
       (external_sources w1
        ++ map SourceDistribution_xml (children root "source"))%list
    /\ exists log,
         warnings w1 = (warnings w ++ log)%list
         /\ warnings w2 = (warnings w1 ++ log)%list.
Proof.
  intros H1.
  destruct (read_settings_loadable root w1 (read_settings_Returned _ _ _ H1))
    as [w2 H2].
  exists w2. split; [exact H2|]. split; [exact (reload_globals _ _ _ _ H1 H2)|].
  split.
  - pose proof (read_settings_sources _ _ _ H1) as Hs1.
    pose proof (read_settings_sources _ _ _ H2) as Hs2.
    destruct (external_sources w1) as [|x l] eqn:Hold.
    + destruct (external_sources w ++ _)%list; discriminate Hs1.
    + exact Hs2.
  - pose proof (read_settings_warnings root w) as Hw1.
    pose proof (read_settings_warnings root w1) as Hw2.
    rewrite H1 in Hw1. rewrite H2 in Hw2. simpl in Hw1, Hw2.
    assert (Hmode : settings.run_mode (globals w1) =
                    settings.run_mode (globals w)).
    { replace w1 with (final (read_settings root w)) by now rewrite H1.
      apply (read_settings_keeps_run_mode root w). }
    rewrite Hmode in Hw2. eexists. split; [exact Hw1|exact Hw2].
Qed.

End Properties.

(** * The theorems at work on sample documents

    The documents and the document access are those of [SimpleXml]; the
    load starts from the defaults, in run mode 1 (not plotting) or 3
    (plotting). *)

#[local] Existing Instance SimpleXml.externals.

Local Abbreviation doc_empty := SimpleXml.doc_empty.
Local Abbreviation doc_full := SimpleXml.doc_full.
Local Abbreviation doc_bogus := SimpleXml.doc_bogus.
Local Abbreviation start := SimpleXml.start.
Local Abbreviation leaf := SimpleXml.leaf.
Local Abbreviation Element := SimpleXml.Element.

(** [doc_empty] has no [source] node: the load returns and leaves the one
    default source. *)
Lemma default_source_when_none_witness :
  children doc_empty "source" = []
  /\ external_sources (start 1) = []
  /\ exists w',
       read_settings doc_empty (start 1) = Returned tt w'
       /\ external_sources w' =
            [SourceDistribution_parts (SpatialPoint 0.0 0.0 0.0) Isotropic
                                      (Watt 0.988 2.249e-6)]
       /\ List.length (external_sources w') = 1%nat.
Proof.
  destruct (default_source_when_none doc_empty (start 1) eq_refl eq_refl)
    as [Hpost Hreturns].
  destruct (Hreturns eq_refl eq_refl eq_refl eq_refl) as [w' Hw'].
  split; [reflexivity|]. split; [reflexivity|].
  exists w'. split; [exact Hw'|]. exact (Hpost w' Hw').
Defined.

(** [doc_full] has two [source] nodes: the load returns and leaves the two
    sources built from them, in their order. *)
Lemma document_sources_in_order_witness :
  children doc_full "source" <> []
  /\ external_sources (start 1) = []
  /\ exists w',
       read_settings doc_full (start 1) = Returned tt w'
       /\ external_sources w' =
            [SourceDistribution_xml (Element "source" "" [leaf "strength" "1"]);
             SourceDistribution_xml (Element "source" "" [leaf "strength" "2"])]
       /\ List.length (external_sources w') = 2%nat
       /\ ~ In default_source (external_sources w').
Proof.
  assert (Hsome : children doc_full "source" <> [])
    by (vm_compute; discriminate).
  destruct (document_sources_in_order doc_full (start 1) Hsome eq_refl)
    as [Hpost Hreturns].
  destruct (Hreturns eq_refl) as [w' Hw'].
  split; [exact Hsome|]. split; [reflexivity|].
  exists w'. split; [exact Hw'|]. exact (Hpost w' Hw').
Defined.


(** "results" gets its separator, "results/" keeps its one. *)
Lemma path_normalization_witness :
  normalize "results" = "results/"
  /\ normalize "results/" = "results/"
  /\ normalize (normalize "results") = normalize "results"
  /\ settings.path_output
       (globals (final (read_settings doc_full (start 1)))) = "results/"
  /\ settings.path_multipole
       (globals (final (read_settings doc_full (start 1)))) = "/data/wmp/".
Proof.
  destruct (path_normalization doc_full (start 1))
    as (Happend & Hkeep & Hidem & Houtput & Hmultipole).
  split.
  { apply (Happend "results"). intros H. apply ends_with_slash in H.
    vm_compute in H. discriminate H. }
  split.
  { apply (Hkeep "results/"). now exists "results". }
  split; [apply Hidem|]. split.
  - exact (Houtput eq_refl eq_refl).
  - apply Hmultipole. vm_compute. discriminate.
Defined.

(** [doc_full] has a [cross_sections] node and is loadable. *)
Lemma deprecated_cross_sections_witness :
  check_for_node doc_full "cross_sections" = true
  /\ loadable doc_full = true
  /\ settings.path_cross_sections
       (globals (final (read_settings doc_full (start 1)))) =
     "/data/cross_sections.xml"
  /\ (exists log,
        warnings (final (read_settings doc_full (start 1))) =
          (warnings (start 1) ++ log)%list
        /\ count_occ string_dec log cross_sections_deprecated = 1%nat)
  /\ exists w', read_settings doc_full (start 1) = Returned tt w'.
Proof.
  destruct (deprecated_cross_sections doc_full (start 1) eq_refl)
    as (_ & Hpath & Hlog & Hreturns).
  split; [reflexivity|]. split; [reflexivity|].
  split; [exact Hpath|]. split; [exact Hlog|].
  apply Hreturns. reflexivity.
Defined.

(** In plotting mode (3) [doc_full], which has a [multipole_library] node,
    leaves [path_multipole] empty. *)
Lemma plotting_skips_multipole_witness :
  settings.run_mode (globals (start 3)) = RUN_MODE_PLOTTING
  /\ check_for_node doc_full "multipole_library" = true
  /\ settings.path_multipole
       (globals (final (read_settings doc_full (start 3)))) = "".
Proof.
  split; [reflexivity|]. split; [reflexivity|].
  exact (plotting_skips_multipole doc_full (start 3) eq_refl).
Defined.

(** [doc_full] gives the range "900 250.5 7": the first entry is above the
    second, and both are assigned. *)
Lemma temperature_range_unchecked_witness :
  check_for_node doc_full "temperature_range" = true
  /\ get_node_array_double doc_full "temperature_range" =
     [900.0; 250.5; 7.0]%float
  /\ exists w',
       read_settings doc_full (start 1) = Returned tt w'
       /\ settings.temperature_range (globals w') = (900.0, 250.5)%float.
Proof.
  destruct (temperature_range_unchecked doc_full (start 1)
              900.0 250.5 [7.0]%float eq_refl eq_refl)
    as (Hpost & _ & Hreturns).
  destruct (Hreturns eq_refl eq_refl eq_refl eq_refl) as [w' Hw'].
  split; [reflexivity|]. split; [reflexivity|].
  exists w'. split; [exact Hw'|]. exact (Hpost w' Hw').
Defined.

(** [doc_empty] has no [multipole_library] node: outside plotting mode the
    empty [path_multipole] becomes "/". *)
Lemma multipole_separator_without_node_witness :
  settings.run_mode (globals (start 1)) <> RUN_MODE_PLOTTING
  /\ check_for_node doc_empty "multipole_library" = false
  /\ settings.path_multipole
       (globals (final (read_settings doc_empty (start 1)))) = "/".
Proof.
  assert (Hmode : settings.run_mode (globals (start 1)) <> RUN_MODE_PLOTTING)
    by (vm_compute; discriminate).
  destruct (multipole_separator_without_node doc_empty (start 1)
              Hmode eq_refl) as [_ Hslash].
  split; [exact Hmode|]. split; [reflexivity|].
  exact (Hslash eq_refl).
Defined.

(** [doc_bogus] stops in the fatal error with its paths and its default
    temperature already written. *)
Lemma fatal_load_not_atomic_witness :
  default_converts doc_bogus = true
  /\ exists w',
       read_settings doc_bogus (start 1) =
         Fatal "Unknown temperature method: bogus" w'
       /\ settings.path_cross_sections (globals w') =
          "/data/cross_sections.xml"
       /\ settings.path_multipole (globals w') = "/data/wmp/"
       /\ settings.path_output (globals w') = "results/"
       /\ settings.temperature_default (globals w') = 300.5%float
       /\ globals w' <> globals (start 1).
Proof.
  assert (H1 : get_node_value doc_bogus "temperature_method" true true
               <> "nearest")
    by (vm_compute; discriminate).
  assert (H2 : get_node_value doc_bogus "temperature_method" true true
               <> "interpolation")
    by (vm_compute; discriminate).
  assert (Hmode : settings.run_mode (globals (start 1)) <> RUN_MODE_PLOTTING)
    by (vm_compute; discriminate).
  destruct (fatal_load_not_atomic doc_bogus (start 1) eq_refl H1 H2 eq_refl)
    as (w' & Hfatal & Hcs & Hmp & Hout & Htd).
  destruct (Hcs eq_refl) as [Hcs_value Hcs_changed].
  destruct (Hmp Hmode eq_refl) as [Hmp_value _].
  destruct (Hout eq_refl eq_refl) as [Hout_value _].
  destruct (Htd eq_refl) as [Htd_value _].
  split; [reflexivity|].
  exists w'. split; [exact Hfatal|].
  split; [exact Hcs_value|]. split; [exact Hmp_value|].
  split; [exact Hout_value|]. split.
  - change (stod (get_node_value doc_bogus "temperature_default" false false))
      with (@inr exception float 300.5%float) in Htd_value.
    now injection Htd_value as <-.
  - apply Hcs_changed. vm_compute. discriminate.
Defined.

(** * The further properties on sample documents *)

(** [doc_empty] has none of the nodes: the seven globals end as the
    defaults. *)
Lemma absent_nodes_keep_fields_witness :
  settings.path_cross_sections
    (globals (final (read_settings doc_empty (start 1)))) = ""
  /\ settings.path_output
       (globals (final (read_settings doc_empty (start 1)))) = ""
  /\ settings.temperature_default
       (globals (final (read_settings doc_empty (start 1)))) = 293.6%float
  /\ settings.temperature_method
       (globals (final (read_settings doc_empty (start 1)))) =
     TEMPERATURE_NEAREST
  /\ settings.temperature_tolerance
       (globals (final (read_settings doc_empty (start 1)))) = 10.0%float
  /\ settings.temperature_multipole
       (globals (final (read_settings doc_empty (start 1)))) = false
  /\ settings.temperature_range
       (globals (final (read_settings doc_empty (start 1)))) =
     (0.0, 0.0)%float.
Proof.
  destruct (absent_nodes_keep_fields doc_empty (start 1))
    as (H1 & H2 & H3 & H4 & H5 & H6 & H7).
  split; [exact (H1 eq_refl)|]. split; [exact (H2 (or_introl eq_refl))|].
  split; [exact (H3 eq_refl)|]. split; [exact (H4 eq_refl)|].
  split; [exact (H5 eq_refl)|]. split; [exact (H6 eq_refl)|].
  exact (H7 eq_refl).
Defined.

(** [doc_full] gives the three temperature scalars. *)
Lemma temperature_scalars_assigned_witness :
  default_converts doc_full = true
  /\ method_accepted doc_full = true
  /\ settings.temperature_default
       (globals (final (read_settings doc_full (start 1)))) = 300.5%float
  /\ settings.temperature_tolerance
       (globals (final (read_settings doc_full (start 1)))) = 25.0%float
  /\ settings.temperature_multipole
       (globals (final (read_settings doc_full (start 1)))) = true.
Proof.
  destruct (temperature_scalars_assigned doc_full (start 1))
    as (Hdefault & Htolerance & Hmultipole).
  split; [reflexivity|]. split; [reflexivity|].
  split; [exact (Hdefault 300.5%float eq_refl eq_refl)|].
  split; [exact (Htolerance 25.0%float eq_refl eq_refl eq_refl eq_refl)|].
  exact (Hmultipole eq_refl eq_refl eq_refl eq_refl).
Defined.

(** [doc_late_nodes] asks for the method "linear" and has a tolerance, a
    flag, a range and a source: none of them has been read when the load
    stops. *)
Lemma fatal_load_leaves_later_fields_witness :
  default_converts Samples.doc_late_nodes = true
  /\ method_accepted Samples.doc_late_nodes = false
  /\ check_for_node Samples.doc_late_nodes "temperature_tolerance" = true
  /\ children Samples.doc_late_nodes "source" <> []
  /\ exists w',
       read_settings Samples.doc_late_nodes (start 1) =
         Fatal "Unknown temperature method: linear" w'
       /\ settings.temperature_method (globals w') = TEMPERATURE_NEAREST
       /\ settings.temperature_tolerance (globals w') = 10.0%float
       /\ settings.temperature_multipole (globals w') = false
       /\ settings.temperature_range (globals w') = (0.0, 0.0)%float
       /\ external_sources w' = [].
Proof.
  split; [reflexivity|]. split; [reflexivity|]. split; [reflexivity|].
  split; [vm_compute; discriminate|].
  exact (fatal_load_leaves_later_fields Samples.doc_late_nodes (start 1)
           eq_refl eq_refl).
Defined.

(** [doc_bad_default] has the [temperature_default] "abc", before an
    unknown method: the load ends in [std::invalid_argument], with the
    path of [cross_sections] written and no source.  [doc_bad_tolerance]
    has the [temperature_tolerance] "1e999": the load ends in
    [std::out_of_range], before its range and its source are read. *)
Lemma stod_exception_stops_the_load_witness :
  read_settings Samples.doc_bad_default (start 1) =
    Thrown invalid_argument (before_default Samples.doc_bad_default (start 1))
  /\ settings.path_cross_sections
       (globals (before_default Samples.doc_bad_default (start 1))) =
     "/data/cross_sections.xml"
  /\ settings.temperature_default
       (globals (before_default Samples.doc_bad_default (start 1))) =
     293.6%float
  /\ external_sources (before_default Samples.doc_bad_default (start 1)) = []
  /\ exists w',
       read_settings Samples.doc_bad_tolerance (start 1) =
         Thrown out_of_range w'
       /\ settings.temperature_tolerance (globals w') = 10.0%float
       /\ settings.temperature_range (globals w') = (0.0, 0.0)%float
       /\ external_sources w' = [].
Proof.
  destruct (stod_exception_stops_the_load Samples.doc_bad_default (start 1)
              invalid_argument) as [Hdefault _].
  destruct (stod_exception_stops_the_load Samples.doc_bad_tolerance (start 1)
              out_of_range) as [_ Htolerance].
  destruct (Hdefault eq_refl eq_refl)
    as (Hthrown & Htd & _ & _ & _ & _ & Hsources).
  destruct (Htolerance eq_refl eq_refl eq_refl eq_refl)
    as (w' & Hthrown' & Htol & _ & Hrange & Hsources').
  split; [exact Hthrown|]. split; [reflexivity|].
  split; [exact Htd|]. split; [exact Hsources|].
  exists w'. split; [exact Hthrown'|]. split; [exact Htol|].
  split; [exact Hrange|exact Hsources'].
Defined.

(** [doc_bad_source] has a second [source] node that the constructor
    rejects: the first source is in [external_sources], the third is not. *)
Lemma rejected_source_stops_the_load_witness :
  exists w',
    read_settings (E := Samples.strict) Samples.doc_bad_source
                  Samples.start_strict =
      Fatal Samples.rejection w'
    /\ external_sources w' =
       [SourceDistribution_xml
          (SimpleXml.Element "source" "" [SimpleXml.leaf "strength" "1"])].
Proof.
  exact (rejected_source_stops_the_load (E := Samples.strict)
           Samples.doc_bad_source Samples.start_strict
           [SimpleXml.Element "source" "" [SimpleXml.leaf "strength" "1"]]
           (SimpleXml.Element "source" "" [])
           [SimpleXml.Element "source" "" [SimpleXml.leaf "strength" "3"]]
           Samples.rejection eq_refl eq_refl eq_refl eq_refl eq_refl eq_refl
           eq_refl).
Defined.

(** [doc_full] loaded on top of one source: the old source stays in
    front, the two of the document follow. *)
Lemma sources_after_a_load_witness :
  exists w',
    read_settings doc_full Samples.started_with_a_source = Returned tt w'
    /\ external_sources w' <> []
    /\ external_sources w' =
       [default_source;
        SourceDistribution_xml (Element "source" "" [leaf "strength" "1"]);
        SourceDistribution_xml (Element "source" "" [leaf "strength" "2"])].
Proof.
  assert (H : read_settings doc_full Samples.started_with_a_source =
              Returned tt
                (final (read_settings doc_full Samples.started_with_a_source)))
    by (vm_compute; reflexivity).
  destruct (sources_after_a_load doc_full Samples.started_with_a_source _ H)
    as (Hnonempty & Hkept & _).
  eexists. split; [exact H|]. split; [exact Hnonempty|].
  apply Hkept. vm_compute. discriminate.
Defined.

(** The three ways of not returning, each on its document: the unknown
    method of [doc_bogus], the [std::invalid_argument] of
    [doc_bad_default], and no failure at all on the loadable [doc_full]. *)
Lemma outcomes_of_a_load_witness :
  method_accepted doc_bogus = false
  /\ stod (get_node_value Samples.doc_bad_default "temperature_default"
                          false false) = inl invalid_argument
  /\ loadable doc_full = true
  /\ exists w', read_settings doc_full (start 1) = Returned tt w'.
Proof.
  destruct (outcomes_of_a_load doc_bogus (start 1)) as (Hfatal & _ & _).
  destruct (outcomes_of_a_load Samples.doc_bad_default (start 1))
    as (_ & Hthrown & _).
  destruct (outcomes_of_a_load doc_full (start 1)) as (_ & _ & Hreturns).
  split.
  { destruct (Hfatal "Unknown temperature method: bogus"
                     (before_method doc_bogus (start 1)))
      as [[Hmethod _]|(n & Hn & _)].
    - vm_compute. reflexivity.
    - exact Hmethod.
    - vm_compute in Hn. contradiction. }
  split.
  { destruct (Hthrown invalid_argument
                      (before_default Samples.doc_bad_default (start 1)))
      as [[_ He]|[_ He]].
    - vm_compute. reflexivity.
    - exact He.
    - vm_compute in He. discriminate He. }
  split; [reflexivity|]. apply Hreturns. reflexivity.
Defined.

(** The paths of [doc_full] end in "/". *)
Lemma directory_paths_end_in_separator_witness :
  has_suffix "/"
    (settings.path_multipole
       (globals (final (read_settings doc_full (start 1)))))
  /\ has_suffix "/"
       (settings.path_output
          (globals (final (read_settings doc_full (start 1))))).
Proof.
  destruct (directory_paths_end_in_separator doc_full (start 1))
    as [Hmultipole Houtput].
  split.
  - apply Hmultipole. vm_compute. discriminate.
  - exact (Houtput eq_refl eq_refl).
Defined.

(** [doc_full] loaded twice: four sources, four warnings, the globals of
    the first load. *)
Lemma loading_twice_witness :
  exists w1 w2,
    read_settings doc_full (start 1) = Returned tt w1
    /\ read_settings doc_full w1 = Returned tt w2
    /\ globals w2 = globals w1
    /\ List.length (external_sources w1) = 2%nat
    /\ List.length (external_sources w2) = 4%nat
    /\ List.length (warnings w2) = 4%nat.
Proof.
  assert (H : read_settings doc_full (start 1) =
              Returned tt (final (read_settings doc_full (start 1))))
    by (vm_compute; reflexivity).
  destruct (loading_twice doc_full (start 1) _ H)
    as (w2 & H2 & Hglobals & Hsources & log & Hlog1 & Hlog2).
  exists (final (read_settings doc_full (start 1))), w2.
  split; [exact H|]. split; [exact H2|]. split; [exact Hglobals|].
  split; [reflexivity|]. split.
  - rewrite Hsources, length_app, length_map. reflexivity.
  - change (warnings (start 1)) with (@nil string) in Hlog1.
    cbn [app] in Hlog1.
    rewrite Hlog2, <- Hlog1, length_app. reflexivity.
Defined.
